(** * Card-on-file demo: phone normaliser and payment gateway proxy

    A shallow embedding of the phone helpers of [frontend/main.js]
    ([validatePhone], [formatPhoneToUS], [formatPhoneInput]) and of the two
    POST handlers of the Express server, with the properties the
    specification states about them.

    JavaScript strings are sequences of UTF-16 code units; the regular
    expressions of the program are kept as syntax trees and run by a
    continuation-passing matcher, the way ECMAScript defines [RegExp]
    matching.  The Stripe client is an arbitrary state machine: every
    theorem about a handler holds for every provider.

    The development also covers the start-up checks of the server and
    the listeners of the phone field ([input], [blur] and
    [updateCustomerPhone]); there the network behind [fetch] is an
    arbitrary state machine as well. *)

From Stdlib Require Import Ascii String NArith ZArith Bool Arith Lia List.
Import ListNotations.

Set Implicit Arguments.

(* ================================================================== *)
(** ** JavaScript strings *)
(* ================================================================== *)

Module JsString.

(** A UTF-16 code unit. *)
Definition char := N.

Definition jsstring := list char.

Definition chr (a : ascii) : char := N_of_ascii a.

(** An ASCII literal of the source, as code units. *)
Definition lit (s : string) : jsstring := map chr (list_ascii_of_string s).

Definition char_eqb (a b : char) : bool := N.eqb a b.

Fixpoint eqb (s t : jsstring) : bool :=
  match s, t with
  | [], [] => true
  | a :: s', b :: t' => char_eqb a b && eqb s' t'
  | _, _ => false
  end.

(** [\d]: the ten ASCII digits, with or without the [u] flag. *)
Definition is_digit (c : char) : bool := ((48 <=? c) && (c <=? 57))%N.

(** [\D]. *)
Definition is_nondigit (c : char) : bool := negb (is_digit c).

(** [\s], which is also what [trim] removes: WhiteSpace and LineTerminator
    of ECMAScript (TAB, LF, VT, FF, CR, SP, NBSP, U+1680, U+2000..U+200A,
    U+2028, U+2029, U+202F, U+205F, U+3000, U+FEFF). *)
Definition is_space (c : char) : bool :=
  ((9 <=? c) && (c <=? 13) || (c =? 32) || (c =? 160) || (c =? 5760)
   || (8192 <=? c) && (c <=? 8202) || (c =? 8232) || (c =? 8233)
   || (c =? 8239) || (c =? 8287) || (c =? 12288) || (c =? 65279))%N.

(** The class [[\s\-\(\)]]. *)
Definition is_separator (c : char) : bool :=
  is_space c || char_eqb c (chr "-") || char_eqb c (chr "(")
  || char_eqb c (chr ")").

(** [s.startsWith(p)]. *)
Fixpoint startsWith (s p : jsstring) {struct p} : bool :=
  match p with
  | [] => true
  | b :: p' =>
      match s with
      | [] => false
      | a :: s' => char_eqb a b && startsWith s' p'
      end
  end.

(** [s.substring(start, end)]: both indices are clamped to the length and
    swapped when they come in the wrong order; a missing [end] is the
    length. *)
Definition substring (s : jsstring) (start : nat) (end_ : option nat)
  : jsstring :=
  let len := length s in
  let intStart := Nat.min start len in
  let intEnd := match end_ with None => len | Some e => Nat.min e len end in
  let from := Nat.min intStart intEnd in
  let to := Nat.max intStart intEnd in
  firstn (to - from) (skipn from s).

Fixpoint trimStart (s : jsstring) : jsstring :=
  match s with
  | c :: s' => if is_space c then trimStart s' else s
  | [] => []
  end.

(** [s.trim()]. *)
Definition trim (s : jsstring) : jsstring :=
  rev (trimStart (rev (trimStart s))).

(** [s.replace(/[...]/g, by)] for a pattern that is one character class:
    every code unit of the class is a match of its own and is replaced. *)
Fixpoint replace_class (p : char -> bool) (by_ : jsstring) (s : jsstring)
  : jsstring :=
  match s with
  | [] => []
  | c :: s' =>
      if p c then by_ ++ replace_class p by_ s'
      else c :: replace_class p by_ s'
  end.

End JsString.

Import JsString.

(* ================================================================== *)
(** ** Regular expressions *)
(* ================================================================== *)

Module RegExp.

(** The fragment of the pattern language the program uses. *)
Inductive regex : Type :=
| Bol                               (* ^ *)
| Eol                               (* $ *)
| Chr (c : char)                    (* a literal, such as \+ or 1 *)
| Cls (p : char -> bool)            (* \d, \s, [...] *)
| Cat (r1 r2 : regex)               (* r1 r2 *)
| Rep (r : regex) (lo hi : nat).    (* r{lo,hi}; r? is r{0,1} *)

(** A continuation receives the index reached and the input left. *)
Definition cont := nat -> jsstring -> bool.

Fixpoint exactly (m : cont -> cont) (n : nat) (k : cont) : cont :=
  match n with
  | O => k
  | S n' => m (exactly m n' k)
  end.

(** Greedy: one more iteration is tried before the continuation. *)
Fixpoint upto (m : cont -> cont) (n : nat) (k : cont) : cont :=
  match n with
  | O => k
  | S n' => fun i s => m (upto m n' k) i s || k i s
  end.

Fixpoint matcher (r : regex) (k : cont) : cont :=
  match r with
  | Bol => fun i s => if Nat.eqb i 0 then k i s else false
  | Eol => fun i s => match s with [] => k i s | _ :: _ => false end
  | Chr c => fun i s =>
      match s with
      | x :: s' => if char_eqb x c then k (S i) s' else false
      | [] => false
      end
  | Cls p => fun i s =>
      match s with
      | x :: s' => if p x then k (S i) s' else false
      | [] => false
      end
  | Cat r1 r2 => matcher r1 (matcher r2 k)
  | Rep r lo hi => exactly (matcher r) lo (upto (matcher r) (hi - lo) k)
  end.

(** A match is looked for at index [i], then at every later index. *)
Fixpoint search (r : regex) (i : nat) (s : jsstring) : bool :=
  matcher r (fun _ _ => true) i s
  || match s with
     | [] => false
     | _ :: s' => search r (S i) s'
     end.

(** [r.test(s)] for a pattern without the [g] and [y] flags. *)
Definition test (r : regex) (s : jsstring) : bool := search r 0 s.

End RegExp.

Import RegExp.

(* ================================================================== *)
(** ** frontend/main.js: the phone helpers *)
(* ================================================================== *)

(** [/^\+?\d{10,15}$/] *)
Definition phoneRegex : regex :=
  Cat Bol (Cat (Rep (Chr (chr "+")) 0 1) (Cat (Rep (Cls is_digit) 10 15) Eol)).

Definition validatePhone (phone : jsstring) : bool :=
  let cleaned := replace_class is_separator [] phone in
  test phoneRegex cleaned.

Definition formatPhoneToUS (phone : jsstring) : jsstring :=
  let digitsOnly := replace_class is_nondigit [] phone in
  if Nat.eqb (length digitsOnly) 11 && startsWith digitsOnly (lit "1") then
    lit "+" ++ digitsOnly
  else if Nat.eqb (length digitsOnly) 10 then
    lit "+1" ++ digitsOnly
  else if startsWith phone (lit "+") then
    replace_class is_separator [] phone
  else
    digitsOnly.

Definition formatPhoneInput (input : jsstring) : jsstring :=
  let digitsOnly := replace_class is_nondigit [] input in
  let limited := substring digitsOnly 0 (Some 10) in
  if length limited <=? 3 then
    limited
  else if length limited <=? 6 then
    lit "(" ++ substring limited 0 (Some 3) ++ lit ") "
    ++ substring limited 3 None
  else
    lit "(" ++ substring limited 0 (Some 3) ++ lit ") "
    ++ substring limited 3 (Some 6) ++ lit "-" ++ substring limited 6 None.

(* ================================================================== *)
(** ** JavaScript values *)
(* ================================================================== *)

Module JsValue.

(** The values a parsed JSON body holds and the objects the handlers build.
    An integer stands for a number: the handlers only ask a number for its
    truthiness and its type. *)
#[warnings="-register-all"]
Inductive value : Type :=
| VUndefined
| VNull
| VBool (b : bool)
| VNumber (n : Z)
| VString (s : jsstring)
| VArray (items : list value)
| VObject (fields : list (jsstring * value)).

Inductive type_tag : Type :=
| TUndefined | TObject | TBoolean | TNumber | TString.

(** [typeof v]. *)
Definition typeof (v : value) : type_tag :=
  match v with
  | VUndefined => TUndefined
  | VNull => TObject
  | VBool _ => TBoolean
  | VNumber _ => TNumber
  | VString _ => TString
  | VArray _ => TObject
  | VObject _ => TObject
  end.

Definition is_string_tag (t : type_tag) : bool :=
  match t with TString => true | _ => false end.

(** ToBoolean: what [!v] negates. *)
Definition truthy (v : value) : bool :=
  match v with
  | VUndefined => false
  | VNull => false
  | VBool b => b
  | VNumber n => negb (Z.eqb n 0)
  | VString s => negb (Nat.eqb (length s) 0)
  | VArray _ => true
  | VObject _ => true
  end.

(** [v.trim().length === 0]; only reached behind the [typeof] guard, a
    value that is no string has no [trim]. *)
Definition trimmed_empty (v : value) : bool :=
  match v with
  | VString s => Nat.eqb (length (trim s)) 0
  | _ => false
  end.

(** Property lookup in an object literal or a parsed JSON object; a key
    that is not there reads as [undefined]. *)
Fixpoint get (fields : list (jsstring * value)) (key : jsstring) : value :=
  match fields with
  | [] => VUndefined
  | (k, v) :: rest => if JsString.eqb k key then v else get rest key
  end.

End JsValue.

Import JsValue.

(* ================================================================== *)
(** ** The server: provider, response and the handler monad *)
(* ================================================================== *)

Module Server.

(** What a rejected provider promise carries. *)
Record Error : Type := { message : jsstring }.

Inductive outcome (A : Type) : Type :=
| Ret (a : A)
| Throw (e : Error).

Arguments Ret {A} a.
Arguments Throw {A} e.

Record Customer : Type := { id : value }.

Record Session : Type := { client_secret : value }.

(** The Stripe client: three calls, each of which answers or throws and
    may change the provider's own state. *)
Record Stripe (PS : Type) : Type := {
  customers_create : value -> PS -> outcome Customer * PS;
  sessions_create : value -> PS -> outcome Session * PS;
  customers_update : value -> value -> PS -> outcome Customer * PS
}.

(** A call that reached the provider, with its arguments. *)
Inductive call : Type :=
| CustomersCreate (params : value)
| SessionsCreate (params : value)
| CustomersUpdate (customerId : value) (params : value).

(** [process.env] and the clock, as far as the handlers read them. *)
Record Env : Type := {
  FRONTEND_URL : jsstring;
  now_iso : jsstring        (* new Date().toISOString() *)
}.

(** The [res] object: the status defaults to 200 until [res.status] sets
    it; [json] sends the body. *)
Record Res : Type := {
  statusCode : N;
  sent : option value
}.

Record World (PS : Type) : Type := {
  provider : PS;
  calls : list call;                      (* oldest first *)
  console : list (jsstring * Error);      (* console.error lines *)
  res : Res
}.

Definition fresh {PS} (ps : PS) : World PS :=
  {| provider := ps; calls := []; console := [];
     res := {| statusCode := 200; sent := None |} |}.

(** Handlers run in a state monad over the world, with exceptions. *)
Definition M (PS A : Type) : Type := World PS -> outcome A * World PS.

Definition ret {PS A} (a : A) : M PS A := fun w => (Ret a, w).

Definition bind {PS A B} (m : M PS A) (f : A -> M PS B) : M PS B :=
  fun w =>
    match m w with
    | (Ret a, w') => f a w'
    | (Throw e, w') => (Throw e, w')
    end.

(** [try { m } catch (error) { h error }]. *)
Definition try_catch {PS A} (m : M PS A) (h : Error -> M PS A) : M PS A :=
  fun w =>
    match m w with
    | (Ret a, w') => (Ret a, w')
    | (Throw e, w') => h e w'
    end.

Declare Scope handler_scope.
Delimit Scope handler_scope with handler.
Notation "x <- m ;; k" := (bind m (fun x => k))
  (at level 61, m at next level, right associativity) : handler_scope.
Notation "m ;; k" := (bind m (fun _ => k))
  (at level 61, right associativity) : handler_scope.
Local Open Scope handler_scope.

(** One provider call: recorded, then answered by the provider. *)
Definition provider_call {PS A} (c : call) (f : PS -> outcome A * PS)
  : M PS A :=
  fun w =>
    let (r, ps') := f (provider w) in
    (r, {| provider := ps'; calls := calls w ++ [c];
           console := console w; res := res w |}).

Definition await_customers_create {PS} (stripe : Stripe PS) (params : value)
  : M PS Customer :=
  provider_call (CustomersCreate params) (customers_create stripe params).

Definition await_sessions_create {PS} (stripe : Stripe PS) (params : value)
  : M PS Session :=
  provider_call (SessionsCreate params) (sessions_create stripe params).

Definition await_customers_update {PS} (stripe : Stripe PS)
  (customerId params : value) : M PS Customer :=
  provider_call (CustomersUpdate customerId params)
    (customers_update stripe customerId params).

Definition console_error {PS} (label : jsstring) (e : Error) : M PS unit :=
  fun w =>
    (Ret tt, {| provider := provider w; calls := calls w;
                console := console w ++ [(label, e)]; res := res w |}).

(** [res.status(code)]. *)
Definition res_status {PS} (code : N) : M PS unit :=
  fun w =>
    (Ret tt, {| provider := provider w; calls := calls w;
                console := console w;
                res := {| statusCode := code; sent := sent (res w) |} |}).

(** [res.json(body)]. *)
Definition res_json {PS} (body : value) : M PS unit :=
  fun w =>
    (Ret tt, {| provider := provider w; calls := calls w;
                console := console w;
                res := {| statusCode := statusCode (res w);
                          sent := Some body |} |}).

(** The argument of [stripe.customers.create]. *)
Definition customer_params (env : Env) : value :=
  VObject [(lit "metadata",
            VObject [(lit "created_at", VString (now_iso env))])].

(** The argument of [stripe.checkout.sessions.create]. *)
Definition session_params (env : Env) (customer : Customer) : value :=
  VObject [(lit "mode", VString (lit "setup"));
           (lit "ui_mode", VString (lit "embedded"));
           (lit "customer", id customer);
           (lit "payment_method_types", VArray [VString (lit "card")]);
           (lit "return_url",
            VString (FRONTEND_URL env
                     ++ lit "?success=true&session_id={CHECKOUT_SESSION_ID}"))].

(** POST /api/create-setup-session *)
Definition create_setup_session {PS} (stripe : Stripe PS) (env : Env)
  : M PS unit :=
  try_catch
    (customer <- await_customers_create stripe (customer_params env) ;;
     session <- await_sessions_create stripe (session_params env customer) ;;
     res_json (VObject [(lit "clientSecret", client_secret session);
                        (lit "customerId", id customer)]))
    (fun error =>
       console_error (lit "Error creating setup session:") error ;;
       res_status 500 ;;
       res_json (VObject [(lit "error", VString (lit "Failed to create setup session"));
                          (lit "message", VString (message error))])).

(** [/^\+1\d{10}$/] *)
Definition usPhoneRegex : regex :=
  Cat Bol (Cat (Chr (chr "+")) (Cat (Chr (chr "1"))
    (Cat (Rep (Cls is_digit) 10 10) Eol))).

(** The string behind a value the [typeof] guard has let through. *)
Definition string_of (v : value) : jsstring :=
  match v with VString s => s | _ => [] end.

(** POST /api/update-customer-phone; [body] is [req.body], the object
    [express.json()] parsed. *)
Definition update_customer_phone {PS} (stripe : Stripe PS)
  (body : list (jsstring * value)) : M PS unit :=
  try_catch
    (let customerId := get body (lit "customerId") in
     let phone := get body (lit "phone") in
     if negb (truthy customerId)
        || negb (is_string_tag (typeof customerId))
        || trimmed_empty customerId then
       res_status 400 ;;
       res_json (VObject [(lit "error", VString (lit "Customer ID is required"));
                          (lit "message", VString (lit "Please provide a valid customer ID"))])
     else if negb (truthy phone)
        || negb (is_string_tag (typeof phone))
        || trimmed_empty phone then
       res_status 400 ;;
       res_json (VObject [(lit "error", VString (lit "Phone number is required"));
                          (lit "message", VString (lit "Please provide a valid phone number"))])
     else
       let cleanedPhone := replace_class is_separator [] (string_of phone) in
       if negb (test usPhoneRegex cleanedPhone) then
         res_status 400 ;;
         res_json (VObject [(lit "error", VString (lit "Invalid phone format"));
                            (lit "message", VString (lit "Phone number must be a valid US number in format +1XXXXXXXXXX"))])
       else
         await_customers_update stripe customerId
           (VObject [(lit "phone", VString cleanedPhone);
                     (lit "metadata",
                      VObject [(lit "phone", VString cleanedPhone)])]) ;;
         res_json (VObject [(lit "success", VBool true)]))
    (fun error =>
       console_error (lit "Error updating customer phone:") error ;;
       res_status 500 ;;
       res_json (VObject [(lit "error", VString (lit "Failed to update customer phone"));
                          (lit "message", VString (message error))])).

(** The world a handler leaves behind when it is run for one request
    against a provider in state [ps]. *)
Definition serve {PS} (handler : M PS unit) (ps : PS) : World PS :=
  snd (handler (fresh ps)).

End Server.

Import Server.

(* ================================================================== *)
(** ** The server: start-up and the health check *)
(* ================================================================== *)

Module Startup.

(** [process.env] once [dotenv.config()] has run: names and their
    strings. *)
Definition process_env := list (jsstring * jsstring).

(** [process.env.NAME]; [None] is [undefined]. *)
Fixpoint getenv (env : process_env) (name : jsstring) : option jsstring :=
  match env with
  | [] => None
  | (k, v) :: rest => if JsString.eqb k name then Some v else getenv rest name
  end.

(** [!process.env.NAME]: not set, or set to the empty string. *)
Definition falsy (v : option jsstring) : bool :=
  match v with
  | None => true
  | Some s => Nat.eqb (length s) 0
  end.

(** What the module has fixed when it reaches [app.listen]. *)
Record Config : Type := {
  secret_key : jsstring;      (* new Stripe(...) *)
  cors_origin : jsstring;     (* cors({ origin: ... }) *)
  PORT : value;               (* process.env.PORT || 4242 *)
  mode : jsstring             (* the mode the listen callback prints *)
}.

(** The top of the server module, down to [app.listen]: a throw here stops
    the process before it serves anything. *)
Definition startup (env : process_env) : outcome Config :=
  if falsy (getenv env (lit "STRIPE_SECRET_KEY")) then
    Throw {| message := lit "STRIPE_SECRET_KEY is required but not found in environment variables" |}
  else if falsy (getenv env (lit "FRONTEND_URL")) then
    Throw {| message := lit "FRONTEND_URL is required but not found in environment variables" |}
  else
    let key := match getenv env (lit "STRIPE_SECRET_KEY") with
               | Some k => k | None => [] end in
    let origin := match getenv env (lit "FRONTEND_URL") with
                  | Some u => u | None => [] end in
    Ret {| secret_key := key;
           cors_origin := origin;
           PORT := if falsy (getenv env (lit "PORT")) then VNumber 4242
                   else match getenv env (lit "PORT") with
                        | Some p => VString p | None => VUndefined end;
           mode := if startsWith key (lit "sk_test_") then lit "TEST"
                   else lit "LIVE" |}.

(** GET /health *)
Definition health {PS} : M PS unit :=
  res_json (VObject [(lit "status", VString (lit "ok"));
                     (lit "message", VString (lit "Server is running"))]).

End Startup.

Import Startup.

(* ================================================================== *)
(** ** frontend/main.js: the phone field of the billing page *)
(* ================================================================== *)

Module Client.

(** What [fetch] resolves to, as far as the page reads it: [response.ok]
    and what [response.json()] resolves to or rejects with. *)
Record Response : Type := {
  ok : bool;
  json : outcome value
}.

(** A [fetch] call: the address and the options; [payload] is the object
    given to [JSON.stringify] for the body. *)
Record Request : Type := {
  url : jsstring;
  method : jsstring;
  content_type : jsstring;
  payload : value
}.

(** The browser, as far as the phone field needs it: the network behind
    [fetch], which answers or rejects and has a state of its own, and two
    things the engine decides: the text [new Error(v)] gives a value that
    is no string, and the message of the TypeError raised by reading a
    property of [null]. *)
Record Browser (NS : Type) : Type := {
  fetch : Request -> NS -> outcome Response * NS;
  ToString : value -> jsstring;
  null_read_message : jsstring
}.

Inductive console_line : Type :=
| ErrorText (text : jsstring)                 (* console.error(text) *)
| ErrorWith (label : jsstring) (e : Error).   (* console.error(label, e) *)

(** The closure of [renderBillingPage] the two listeners share, and the
    three elements they touch.  A [display] flag is [true] for
    ['block'] and [false] for ['none']. *)
Record Page (NS : Type) : Type := {
  network : NS;
  requests : list Request;                    (* oldest first *)
  customerId : value;                         (* null until the session is made *)
  lastSavedPhone : option jsstring;           (* None is null *)
  phoneInput_value : jsstring;
  phoneError_text : jsstring;
  phoneError_display : bool;
  phoneSuccess_display : bool;
  timeouts : list N;                          (* setTimeout delays pending *)
  page_console : list console_line
}.

(** The listeners run in a state monad over the page, with exceptions. *)
Definition P (NS A : Type) : Type := Page NS -> outcome A * Page NS.

Definition unit_ {NS A} (a : A) : P NS A := fun pg => (Ret a, pg).

Definition throw {NS A} (e : Error) : P NS A := fun pg => (Throw e, pg).

Definition then_ {NS A B} (m : P NS A) (f : A -> P NS B) : P NS B :=
  fun pg =>
    match m pg with
    | (Ret a, pg') => f a pg'
    | (Throw e, pg') => (Throw e, pg')
    end.

Definition try_ {NS A} (m : P NS A) (h : Error -> P NS A) : P NS A :=
  fun pg =>
    match m pg with
    | (Ret a, pg') => (Ret a, pg')
    | (Throw e, pg') => h e pg'
    end.

Declare Scope page_scope.
Delimit Scope page_scope with page.
Notation "x <- m ;; k" := (then_ m (fun x => k))
  (at level 61, m at next level, right associativity) : page_scope.
Notation "m ;; k" := (then_ m (fun _ => k))
  (at level 61, right associativity) : page_scope.
Local Open Scope page_scope.

Definition with_page {NS} (f : Page NS -> Page NS) : P NS unit :=
  fun pg => (Ret tt, f pg).

Definition set_lastSavedPhone {NS} (p : jsstring) (pg : Page NS) : Page NS :=
  {| network := network pg; requests := requests pg;
     customerId := customerId pg; lastSavedPhone := Some p;
     phoneInput_value := phoneInput_value pg;
     phoneError_text := phoneError_text pg;
     phoneError_display := phoneError_display pg;
     phoneSuccess_display := phoneSuccess_display pg;
     timeouts := timeouts pg; page_console := page_console pg |}.

Definition set_phoneInput_value {NS} (v : jsstring) (pg : Page NS) : Page NS :=
  {| network := network pg; requests := requests pg;
     customerId := customerId pg; lastSavedPhone := lastSavedPhone pg;
     phoneInput_value := v;
     phoneError_text := phoneError_text pg;
     phoneError_display := phoneError_display pg;
     phoneSuccess_display := phoneSuccess_display pg;
     timeouts := timeouts pg; page_console := page_console pg |}.

Definition set_phoneError_text {NS} (t : jsstring) (pg : Page NS) : Page NS :=
  {| network := network pg; requests := requests pg;
     customerId := customerId pg; lastSavedPhone := lastSavedPhone pg;
     phoneInput_value := phoneInput_value pg;
     phoneError_text := t;
     phoneError_display := phoneError_display pg;
     phoneSuccess_display := phoneSuccess_display pg;
     timeouts := timeouts pg; page_console := page_console pg |}.

Definition set_phoneError_display {NS} (b : bool) (pg : Page NS) : Page NS :=
  {| network := network pg; requests := requests pg;
     customerId := customerId pg; lastSavedPhone := lastSavedPhone pg;
     phoneInput_value := phoneInput_value pg;
     phoneError_text := phoneError_text pg;
     phoneError_display := b;
     phoneSuccess_display := phoneSuccess_display pg;
     timeouts := timeouts pg; page_console := page_console pg |}.

Definition set_phoneSuccess_display {NS} (b : bool) (pg : Page NS) : Page NS :=
  {| network := network pg; requests := requests pg;
     customerId := customerId pg; lastSavedPhone := lastSavedPhone pg;
     phoneInput_value := phoneInput_value pg;
     phoneError_text := phoneError_text pg;
     phoneError_display := phoneError_display pg;
     phoneSuccess_display := b;
     timeouts := timeouts pg; page_console := page_console pg |}.

(** [setTimeout(..., delay)]: the delay is noted; [on_timeout] is what
    runs when it is over. *)
Definition setTimeout {NS} (delay : N) (pg : Page NS) : Page NS :=
  {| network := network pg; requests := requests pg;
     customerId := customerId pg; lastSavedPhone := lastSavedPhone pg;
     phoneInput_value := phoneInput_value pg;
     phoneError_text := phoneError_text pg;
     phoneError_display := phoneError_display pg;
     phoneSuccess_display := phoneSuccess_display pg;
     timeouts := timeouts pg ++ [delay]; page_console := page_console pg |}.

Definition console_error_line {NS} (l : console_line) (pg : Page NS)
  : Page NS :=
  {| network := network pg; requests := requests pg;
     customerId := customerId pg; lastSavedPhone := lastSavedPhone pg;
     phoneInput_value := phoneInput_value pg;
     phoneError_text := phoneError_text pg;
     phoneError_display := phoneError_display pg;
     phoneSuccess_display := phoneSuccess_display pg;
     timeouts := timeouts pg; page_console := page_console pg ++ [l] |}.

(** [await fetch(...)]: the request is noted, then answered by the
    network. *)
Definition await_fetch {NS} (br : Browser NS) (rq : Request)
  : P NS Response :=
  fun pg =>
    let (r, ns') := fetch br rq (network pg) in
    (r, {| network := ns'; requests := requests pg ++ [rq];
           customerId := customerId pg; lastSavedPhone := lastSavedPhone pg;
           phoneInput_value := phoneInput_value pg;
           phoneError_text := phoneError_text pg;
           phoneError_display := phoneError_display pg;
           phoneSuccess_display := phoneSuccess_display pg;
           timeouts := timeouts pg; page_console := page_console pg |}).

(** [await response.json().catch(() => ({}))]. *)
Definition json_or_empty (response : Response) : value :=
  match json response with
  | Ret v => v
  | Throw _ => VObject []
  end.

(** [errorData.message]: a key of an object; [undefined] on any other
    value that has properties; a TypeError on [null] and [undefined]. *)
Definition read_message {NS} (br : Browser NS) (errorData : value)
  : P NS value :=
  match errorData with
  | VObject fields => unit_ (get fields (lit "message"))
  | VNull | VUndefined => throw {| message := null_read_message br |}
  | VBool _ | VNumber _ | VString _ | VArray _ => unit_ VUndefined
  end.

(** [a || b]. *)
Definition or_else (a b : value) : value := if truthy a then a else b.

(** [new Error(v)]: the message is [v] as a string. *)
Definition new_Error {NS} (br : Browser NS) (v : value) : Error :=
  {| message := match v with
                | VString s => s
                | VUndefined => []
                | _ => ToString br v
                end |}.

(** [phone === lastSavedPhone], for a string [phone]. *)
Definition same_as_saved (phone : jsstring) (saved : option jsstring)
  : bool :=
  match saved with
  | Some p => JsString.eqb phone p
  | None => false
  end.

(** The request [updateCustomerPhone] sends. *)
Definition update_request (backendUrl : jsstring) (customerId : value)
  (phone : jsstring) : Request :=
  {| url := backendUrl ++ lit "/api/update-customer-phone";
     method := lit "POST";
     content_type := lit "application/json";
     payload := VObject [(lit "customerId", customerId);
                         (lit "phone", VString phone)] |}.

(** [updateCustomerPhone(phone)] *)
Definition updateCustomerPhone {NS} (br : Browser NS) (backendUrl : jsstring)
  (phone : jsstring) : P NS unit :=
  fun pg =>
    if negb (truthy (customerId pg)) then
      with_page (console_error_line
                   (ErrorText (lit "No customer ID available"))) pg
    else if same_as_saved phone (lastSavedPhone pg) then
      unit_ tt pg
    else
      try_
        (response <- await_fetch br
                       (update_request backendUrl (customerId pg) phone) ;;
         (if negb (ok response) then
            m <- read_message br (json_or_empty response) ;;
            throw (new_Error br
                     (or_else m (VString (lit "Failed to save phone"))))
          else unit_ tt) ;;
         with_page (set_lastSavedPhone phone) ;;
         with_page (set_phoneSuccess_display true) ;;
         with_page (set_phoneError_display false) ;;
         with_page (setTimeout 3000))
        (fun error =>
           with_page (console_error_line
                        (ErrorWith (lit "Error updating phone:") error)) ;;
           with_page (set_phoneError_text
                        (if Nat.eqb (length (message error)) 0
                         then lit "Failed to save phone number"
                         else message error)) ;;
           with_page (set_phoneError_display true) ;;
           with_page (set_phoneSuccess_display false))
        pg.

(** The callback of the three-second timer. *)
Definition on_timeout {NS} : P NS unit :=
  with_page (set_phoneSuccess_display false).

(** The [input] listener: the field's text is replaced by its display
    form. *)
Definition on_input {NS} : P NS unit :=
  fun pg =>
    let formatted := formatPhoneInput (phoneInput_value pg) in
    with_page (set_phoneInput_value formatted) pg.

(** The [blur] listener. *)
Definition on_blur {NS} (br : Browser NS) (backendUrl : jsstring)
  : P NS unit :=
  fun pg =>
    let phone := trim (phoneInput_value pg) in
    if Nat.eqb (length phone) 0 then
      (with_page (set_phoneError_display false) ;;
       with_page (set_phoneSuccess_display false)) pg
    else
      let digitsOnly := replace_class is_nondigit [] phone in
      if negb (Nat.eqb (length digitsOnly) 10) then
        (with_page (set_phoneError_text
                      (lit "Please enter a valid 10-digit US phone number")) ;;
         with_page (set_phoneError_display true) ;;
         with_page (set_phoneSuccess_display false)) pg
      else
        let formattedPhone := formatPhoneToUS phone in
        updateCustomerPhone br backendUrl formattedPhone pg.

(** The page a listener leaves behind. *)
Definition after {NS} (listener : P NS unit) (pg : Page NS) : Page NS :=
  snd (listener pg).

End Client.

Import Client.

(* ================================================================== *)
(** ** The vocabulary of the specification *)
(* ================================================================== *)

(** A string of digits only. *)
Definition all_digits (s : jsstring) : Prop := forallb is_digit s = true.

(** The input with every non-digit removed. *)
Definition digits_of (s : jsstring) : jsstring := filter is_digit s.

(** The input with whitespace, hyphens and parentheses removed. *)
Definition stripped (s : jsstring) : jsstring :=
  filter (fun c => negb (is_separator c)) s.

(** Empty, or whitespace only. *)
Definition blank (s : jsstring) : Prop := forallb is_space s = true.

(** [+1] followed by exactly ten digits. *)
Definition canonical_us (s : jsstring) : Prop :=
  exists ds, s = lit "+1" ++ ds /\ length ds = 10 /\ all_digits ds.

(** An optional leading [+] followed by ten to fifteen digits. *)
Definition plausible_phone (s : jsstring) : Prop :=
  exists sign ds,
    (sign = [] \/ sign = lit "+")
    /\ 10 <= length ds <= 15 /\ all_digits ds /\ s = sign ++ ds.

(** A field of the request body that is present with a non-blank string.
    Any other value (no value at all, [null], a number, a blank string)
    counts as not given. *)
Definition given (v : value) : Prop :=
  exists s, v = VString s /\ ~ blank s.

(** The progressive display of at most ten digits. *)
Definition display (d : jsstring) : jsstring :=
  if length d <=? 3 then d
  else if length d <=? 6 then
    lit "(" ++ firstn 3 d ++ lit ") " ++ skipn 3 d
  else
    lit "(" ++ firstn 3 d ++ lit ") " ++ firstn 3 (skipn 3 d)
    ++ lit "-" ++ skipn 6 d.

(** A response with an error payload: a short error text and a message. *)
Definition error_response (status : N) (error : string) (msg : jsstring)
  : Res :=
  {| statusCode := status;
     sent := Some (VObject [(lit "error", VString (lit error));
                            (lit "message", VString msg)]) |}.

(** 200 with the body [{success: true}]. *)
Definition success_response : Res :=
  {| statusCode := 200;
     sent := Some (VObject [(lit "success", VBool true)]) |}.

(** The update the phone endpoint asks of the provider: the phone field
    and the metadata phone field, both holding [p]. *)
Definition phone_update (customerId : value) (p : jsstring) : call :=
  CustomersUpdate customerId
    (VObject [(lit "phone", VString p);
              (lit "metadata", VObject [(lit "phone", VString p)])]).

(** The world after a request that was turned away: the provider was not
    called and its state is as before. *)
Definition rejected {PS} (ps : PS) (r : Res) : World PS :=
  {| provider := ps; calls := []; console := []; res := r |}.

(** Provider stubs for the concrete runs: every call answers as told and
    the provider keeps no state. *)
Definition stub (c : outcome Customer) (s : outcome Session)
  (u : outcome Customer) : Stripe unit :=
  {| customers_create := fun _ ps => (c, ps);
     sessions_create := fun _ ps => (s, ps);
     customers_update := fun _ _ ps => (u, ps) |}.

Definition cus_123 : Customer := {| id := VString (lit "cus_123") |}.

Definition cs_test : Session :=
  {| client_secret := VString (lit "cs_test_a1b2_secret_c3d4") |}.

Definition rate_limited : Error := {| message := lit "Too many requests" |}.

Definition stub_up : Stripe unit :=
  stub (Ret cus_123) (Ret cs_test) (Ret cus_123).

Definition stub_down : Stripe unit :=
  stub (Throw rate_limited) (Throw rate_limited) (Throw rate_limited).

Definition demo_env : Env :=
  {| FRONTEND_URL := lit "http://localhost:3000";
     now_iso := lit "2024-05-01T12:00:00.000Z" |}.

Definition phone_body (customerId phone : string) : list (jsstring * value) :=
  [(lit "customerId", VString (lit customerId));
   (lit "phone", VString (lit phone))].

(** The page once a request has gone out and the network has moved to
    [ns']. *)
Definition fetched {NS} (rq : Request) (ns' : NS) (pg : Page NS) : Page NS :=
  {| network := ns'; requests := requests pg ++ [rq];
     customerId := customerId pg; lastSavedPhone := lastSavedPhone pg;
     phoneInput_value := phoneInput_value pg;
     phoneError_text := phoneError_text pg;
     phoneError_display := phoneError_display pg;
     phoneSuccess_display := phoneSuccess_display pg;
     timeouts := timeouts pg; page_console := page_console pg |}.

(** The page after a save: the phone is remembered, the success note is
    up for three seconds, the error is hidden. *)
Definition saved_page {NS} (phone : jsstring) (pg : Page NS) : Page NS :=
  setTimeout 3000
    (set_phoneError_display false
       (set_phoneSuccess_display true (set_lastSavedPhone phone pg))).

(** The text shown for an error: its message, or a stock text when the
    message is empty. *)
Definition shown_text (e : Error) : jsstring :=
  match message e with
  | [] => lit "Failed to save phone number"
  | _ :: _ => message e
  end.

(** The page after a failed save: the error is on the console and on the
    page, the success note is hidden. *)
Definition failed_page {NS} (e : Error) (pg : Page NS) : Page NS :=
  set_phoneSuccess_display false
    (set_phoneError_display true
       (set_phoneError_text (shown_text e)
          (console_error_line (ErrorWith (lit "Error updating phone:") e)
             pg))).

(** The error raised for a response that is not ok. *)
Definition refusal {NS} (br : Browser NS) (r : Response) : Error :=
  match json r with
  | Throw _ => {| message := lit "Failed to save phone" |}
  | Ret (VObject fields) =>
      match get fields (lit "message") with
      | VString [] => {| message := lit "Failed to save phone" |}
      | VString m => {| message := m |}
      | v => if truthy v then {| message := ToString br v |}
             else {| message := lit "Failed to save phone" |}
      end
  | Ret VNull | Ret VUndefined => {| message := null_read_message br |}
  | Ret _ => {| message := lit "Failed to save phone" |}
  end.

(** A browser whose network gives every request the same answer. *)
Definition browser_stub (r : outcome Response) : Browser unit :=
  {| fetch := fun _ ns => (r, ns);
     ToString := fun _ => lit "[object Object]";
     null_read_message := lit "Cannot read properties of null" |}.

Definition response_ok : Response :=
  {| ok := true; json := Ret (VObject [(lit "success", VBool true)]) |}.

Definition response_400 : Response :=
  {| ok := false;
     json := Ret (VObject
       [(lit "error", VString (lit "Invalid phone format"));
        (lit "message", VString (lit "Phone number must be a valid US number in format +1XXXXXXXXXX"))]) |}.

Definition offline : Error := {| message := lit "Failed to fetch" |}.

(** A page as [renderBillingPage] sets it up, with a customer id, a last
    saved phone and a text in the field. *)
Definition page_with (cid : value) (saved : option jsstring)
  (text : jsstring) : Page unit :=
  {| network := tt; requests := []; customerId := cid;
     lastSavedPhone := saved; phoneInput_value := text;
     phoneError_text := []; phoneError_display := false;
     phoneSuccess_display := false; timeouts := []; page_console := [] |}.

Definition backend : jsstring := lit "http://localhost:4242".

(* ================================================================== *)
(** ** Concrete runs *)
(* ================================================================== *)

Section Runs.

Example trim_both_ends : trim (lit "  cus_123 ") = lit "cus_123".
Proof. reflexivity. Qed.

Example substring_clamps :
  substring (lit "5551234") 3 (Some 6) = lit "123"
  /\ substring (lit "5551") 3 (Some 6) = lit "1"
  /\ substring (lit "55") 3 None = [].
Proof. repeat split. Qed.

(** Without [^] a match may start anywhere; with it, only at index 0. *)
Example test_searches :
  test (Rep (Cls is_digit) 2 3) (lit "ab12") = true
  /\ test (Cat Bol (Rep (Cls is_digit) 2 3)) (lit "ab12") = false.
Proof. split; reflexivity. Qed.

Example usPhoneRegex_runs :
  map (test usPhoneRegex)
    [lit "+15551234567"; lit "15551234567"; lit "+1555123456";
     lit "+155512345678"; lit "+1555123456a"; lit "x+15551234567"]
  = [true; false; false; false; false; false].
Proof. reflexivity. Qed.

Example formatPhoneToUS_runs :
  map formatPhoneToUS
    [lit "(555) 123-4567"; lit "1 555 123 4567"; lit "+44 20 7946";
     lit "555-1234"]
  = [lit "+15551234567"; lit "+15551234567"; lit "+44207946";
     lit "5551234"].
Proof. reflexivity. Qed.

Example formatPhoneInput_typing :
  map formatPhoneInput
    [lit "555"; lit "5551"; lit "(555) 123"; lit "(555) 1234";
     lit "55512345678"]
  = [lit "555"; lit "(555) 1"; lit "(555) 123"; lit "(555) 123-4";
     lit "(555) 123-4567"].
Proof. reflexivity. Qed.

Example update_customer_phone_run :
  serve (update_customer_phone stub_up
           (phone_body "cus_123" "+1 555-123-4567")) tt
  = {| provider := tt;
       calls := [phone_update (VString (lit "cus_123")) (lit "+15551234567")];
       console := [];
       res := success_response |}.
Proof. reflexivity. Qed.

Example update_customer_phone_not_a_string :
  res (serve (update_customer_phone stub_up
                [(lit "customerId", VNumber 123);
                 (lit "phone", VString (lit "+15551234567"))]) tt)
  = error_response 400 "Customer ID is required"
      (lit "Please provide a valid customer ID").
Proof. reflexivity. Qed.

End Runs.

(* ================================================================== *)
(** ** Strings: lemmas *)
(* ================================================================== *)

Section StringFacts.

Lemma replace_class_delete (p : char -> bool) (s : jsstring) :
  replace_class p [] s = filter (fun c => negb (p c)) s.
Proof.
  induction s as [|c s IH]; simpl; [reflexivity|].
  destruct (p c); simpl; now rewrite IH.
Qed.

Lemma strip_nondigits (s : jsstring) :
  replace_class is_nondigit [] s = digits_of s.
Proof.
  rewrite replace_class_delete. unfold digits_of, is_nondigit.
  induction s as [|c s IH]; simpl; [reflexivity|].
  rewrite negb_involutive, IH. reflexivity.
Qed.

Lemma strip_separators (s : jsstring) :
  replace_class is_separator [] s = stripped s.
Proof. apply replace_class_delete. Qed.

Lemma digits_of_all_digits (s : jsstring) : all_digits (digits_of s).
Proof.
  unfold all_digits, digits_of.
  induction s as [|c s IH]; simpl; [reflexivity|].
  destruct (is_digit c) eqn:E; simpl; [now rewrite E|exact IH].
Qed.

Lemma digits_of_fixed (s : jsstring) : all_digits s -> digits_of s = s.
Proof.
  unfold all_digits, digits_of.
  induction s as [|c s IH]; simpl; [reflexivity|].
  intros H. apply andb_true_iff in H as [Hc Hs].
  rewrite Hc, (IH Hs). reflexivity.
Qed.

Lemma digits_of_app (s t : jsstring) :
  digits_of (s ++ t) = digits_of s ++ digits_of t.
Proof. apply filter_app. Qed.

Lemma all_digits_app (s t : jsstring) :
  all_digits (s ++ t) <-> all_digits s /\ all_digits t.
Proof. unfold all_digits. rewrite forallb_app. apply andb_true_iff. Qed.

Lemma all_digits_firstn (n : nat) (s : jsstring) :
  all_digits s -> all_digits (firstn n s).
Proof.
  intros H. rewrite <- (firstn_skipn n s) in H.
  now apply all_digits_app in H.
Qed.

Lemma all_digits_skipn (n : nat) (s : jsstring) :
  all_digits s -> all_digits (skipn n s).
Proof.
  intros H. rewrite <- (firstn_skipn n s) in H.
  now apply all_digits_app in H.
Qed.

Lemma substring_prefix (s : jsstring) (n : nat) :
  substring s 0 (Some n) = firstn n s.
Proof.
  unfold substring. simpl. rewrite Nat.sub_0_r.
  destruct (Nat.le_ge_cases n (length s)) as [H|H].
  - now rewrite Nat.min_l.
  - rewrite Nat.min_r by assumption.
    now rewrite !firstn_all2 by lia.
Qed.

Lemma substring_suffix (s : jsstring) (n : nat) :
  substring s n None = skipn n s.
Proof.
  unfold substring.
  destruct (Nat.le_ge_cases n (length s)) as [H|H].
  - rewrite (Nat.min_l n) by assumption.
    rewrite Nat.min_l, Nat.max_r by assumption.
    apply firstn_all2. rewrite length_skipn. lia.
  - rewrite (Nat.min_r n) by assumption.
    rewrite Nat.min_id, Nat.max_id, Nat.sub_diag.
    now rewrite (skipn_all2 s H).
Qed.

Lemma substring_middle (s : jsstring) (a b : nat) :
  a <= b -> substring s a (Some b) = firstn (b - a) (skipn a s).
Proof.
  intros Hab. unfold substring.
  destruct (Nat.le_ge_cases b (length s)) as [Hb|Hb].
  - rewrite (Nat.min_l a), (Nat.min_l b) by lia.
    now rewrite Nat.min_l, Nat.max_r by lia.
  - rewrite (Nat.min_r b) by lia.
    destruct (Nat.le_ge_cases a (length s)) as [Ha|Ha].
    + rewrite (Nat.min_l a) by lia.
      rewrite Nat.min_l, Nat.max_r by lia.
      rewrite !firstn_all2; try reflexivity; rewrite length_skipn; lia.
    + rewrite (Nat.min_r a) by lia.
      rewrite Nat.min_id, Nat.max_id, Nat.sub_diag.
      rewrite (skipn_all2 s Ha). now destruct (b - a).
Qed.

Lemma startsWith_char (s : jsstring) (c : char) :
  startsWith s [c] = true <-> exists t, s = c :: t.
Proof.
  destruct s as [|a t]; simpl.
  - split; [discriminate|]. now intros [t H].
  - rewrite andb_true_r. unfold char_eqb. rewrite N.eqb_eq. split.
    + intros ->. now exists t.
    + intros [t' H]. now inversion H.
Qed.

Lemma trimStart_nil (s : jsstring) : trimStart s = [] <-> blank s.
Proof.
  unfold blank. induction s as [|c s IH]; simpl; [tauto|].
  destruct (is_space c); simpl; [exact IH|].
  split; discriminate.
Qed.

Lemma trimStart_keeps (s : jsstring) :
  ~ blank s -> exists c t, trimStart s = c :: t /\ is_space c = false.
Proof.
  unfold blank. induction s as [|c s IH]; simpl; [congruence|].
  destruct (is_space c) eqn:E; simpl.
  - exact IH.
  - intros _. now exists c, s.
Qed.

Lemma trim_empty (s : jsstring) : length (trim s) = 0 <-> blank s.
Proof.
  unfold trim. rewrite length_rev, length_zero_iff_nil. split.
  - intros H. destruct (forallb is_space s) eqn:E; [exact E|exfalso].
    destruct (@trimStart_keeps s) as (c & t & Hs & Hc).
    { unfold blank. congruence. }
    rewrite Hs in H. simpl in H. apply trimStart_nil in H.
    unfold blank in H. rewrite forallb_app in H. simpl in H.
    rewrite Hc, andb_false_r in H. discriminate.
  - intros H. apply trimStart_nil in H. now rewrite H.
Qed.

End StringFacts.

(* ================================================================== *)
(** ** Regular expressions: what the patterns of the program accept *)
(* ================================================================== *)

Section RegExpFacts.

Variable p : char -> bool.

(** [n] iterations of a class consume [n] code units of the class. *)
Lemma exactly_class (n : nat) (k : cont) (i : nat) (s : jsstring) :
  exactly (matcher (Cls p)) n k i s = true
  <-> exists ds rest,
        s = ds ++ rest /\ length ds = n /\ forallb p ds = true
        /\ k (n + i) rest = true.
Proof.
  revert i s. induction n as [|n IH]; intros i s; simpl.
  - split.
    + intros H. now exists [], s.
    + intros (ds & rest & -> & Hl & _ & Hk).
      apply length_zero_iff_nil in Hl. now subst ds.
  - destruct s as [|x s].
    + split; [discriminate|].
      intros (ds & rest & Hs & Hl & _).
      destruct ds; simpl in *; discriminate.
    + destruct (p x) eqn:Hx.
      * rewrite IH. split.
        -- intros (ds & rest & -> & Hl & Hp & Hk).
           exists (x :: ds), rest. simpl. rewrite Hx, Hp, Hl.
           rewrite Nat.add_succ_r in Hk. auto.
        -- intros (ds & rest & Hs & Hl & Hp & Hk).
           destruct ds as [|y ds]; [discriminate|].
           simpl in *. injection Hs as -> ->. injection Hl as Hl.
           apply andb_true_iff in Hp as [_ Hp].
           exists ds, rest. rewrite Nat.add_succ_r. auto.
      * split; [discriminate|].
        intros (ds & rest & Hs & Hl & Hp & _).
        destruct ds as [|y ds]; [discriminate|].
        simpl in *. injection Hs as -> ->. rewrite Hx in Hp. discriminate.
Qed.

(** At most [n] iterations of a class. *)
Lemma upto_class (n : nat) (k : cont) (i : nat) (s : jsstring) :
  upto (matcher (Cls p)) n k i s = true
  <-> exists ds rest,
        s = ds ++ rest /\ length ds <= n /\ forallb p ds = true
        /\ k (length ds + i) rest = true.
Proof.
  revert i s. induction n as [|n IH]; intros i s; simpl.
  - split.
    + intros H. now exists [], s.
    + intros (ds & rest & -> & Hl & _ & Hk).
      destruct ds; simpl in *; [assumption|lia].
  - rewrite orb_true_iff. split.
    + intros [H|H].
      * destruct s as [|x s]; [discriminate|].
        destruct (p x) eqn:Hx; [|discriminate].
        apply IH in H as (ds & rest & -> & Hl & Hp & Hk).
        exists (x :: ds), rest. simpl. rewrite Hx, Hp.
        rewrite Nat.add_succ_r in Hk. repeat split; auto. lia.
      * exists [], s. simpl. repeat split; auto. lia.
    + intros (ds & rest & -> & Hl & Hp & Hk).
      destruct ds as [|x ds]; [now right|left].
      simpl in *. apply andb_true_iff in Hp as [Hx Hp]. rewrite Hx.
      apply IH. exists ds, rest. rewrite Nat.add_succ_r.
      repeat split; auto. lia.
Qed.

(** The quantifier [{lo,hi}] on a class. *)
Lemma rep_class (lo hi : nat) (k : cont) (i : nat) (s : jsstring) :
  lo <= hi ->
  matcher (Rep (Cls p) lo hi) k i s = true
  <-> exists ds rest,
        s = ds ++ rest /\ lo <= length ds <= hi /\ forallb p ds = true
        /\ k (length ds + i) rest = true.
Proof.
  intros Hlh.
  change (matcher (Rep (Cls p) lo hi) k)
    with (exactly (matcher (Cls p)) lo (upto (matcher (Cls p)) (hi - lo) k)).
  rewrite exactly_class. split.
  - intros (ds & rest & -> & Hl & Hp & Hk).
    apply upto_class in Hk as (es & rest' & -> & Hl' & Hp' & Hk).
    exists (ds ++ es), rest'.
    rewrite <- app_assoc, length_app, forallb_app, Hp, Hp'.
    repeat split; auto; try lia.
    replace (length ds + length es + i) with (length es + (lo + i)) by lia.
    exact Hk.
  - intros (ds & rest & -> & Hl & Hp & Hk).
    exists (firstn lo ds), (skipn lo ds ++ rest).
    rewrite app_assoc, firstn_skipn.
    rewrite <- (firstn_skipn lo ds), forallb_app in Hp.
    apply andb_true_iff in Hp as [Hp1 Hp2].
    repeat split; auto.
    + apply firstn_length_le. lia.
    + apply upto_class. exists (skipn lo ds), rest.
      rewrite length_skipn. repeat split; auto; try lia.
      replace (length ds - lo + (lo + i)) with (length ds + i) by lia.
      exact Hk.
Qed.

End RegExpFacts.

Section Anchors.

(** With [^] in front and no [m] flag, only index 0 can match. *)
Lemma search_anchored_later (r : regex) (i : nat) (s : jsstring) :
  search (Cat Bol r) (S i) s = false.
Proof.
  revert i. induction s as [|c s IH]; intros i; simpl; [reflexivity|].
  apply IH.
Qed.

Lemma test_anchored (r : regex) (s : jsstring) :
  test (Cat Bol r) s = matcher r (fun _ _ => true) 0 s.
Proof.
  unfold test. destruct s; simpl.
  - apply orb_false_r.
  - rewrite search_anchored_later. apply orb_false_r.
Qed.

Lemma eol_accepts (i : nat) (s : jsstring) :
  matcher Eol (fun _ _ => true) i s = true <-> s = [].
Proof. destruct s; simpl; split; congruence. Qed.

(** [/^\+1\d{10}$/] accepts the canonical US numbers and nothing else. *)
Lemma usPhoneRegex_accepts (s : jsstring) :
  test usPhoneRegex s = true <-> canonical_us s.
Proof.
  unfold usPhoneRegex, canonical_us. rewrite test_anchored.
  change (matcher (Cat (Chr (chr "+")) (Cat (Chr (chr "1"))
            (Cat (Rep (Cls is_digit) 10 10) Eol))) (fun _ _ => true) 0 s)
    with (match s with
          | x :: s' =>
              if char_eqb x (chr "+") then
                match s' with
                | y :: s'' =>
                    if char_eqb y (chr "1") then
                      matcher (Rep (Cls is_digit) 10 10)
                        (matcher Eol (fun _ _ => true)) 2 s''
                    else false
                | [] => false
                end
              else false
          | [] => false
          end).
  destruct s as [|x [|y s]].
  - split; [discriminate|]. intros (ds & H & _). discriminate.
  - split; [now destruct (char_eqb x (chr "+"))|].
    intros (ds & H & _). discriminate.
  - unfold char_eqb.
    destruct (N.eqb_spec x (chr "+")) as [->|Hx].
    2:{ split; [discriminate|]. intros (ds & H & _).
        injection H as H _. contradiction. }
    destruct (N.eqb_spec y (chr "1")) as [->|Hy].
    2:{ split; [discriminate|]. intros (ds & H & _).
        injection H as H _. contradiction. }
    rewrite rep_class by lia. split.
    + intros (ds & rest & -> & Hl & Hp & Hk).
      apply eol_accepts in Hk. subst rest. rewrite app_nil_r.
      exists ds. repeat split; auto. lia.
    + intros (ds & H & Hl & Hp). injection H as ->.
      exists ds, []. rewrite app_nil_r. repeat split; auto; lia.
Qed.

(** [/^\+?\d{10,15}$/] accepts an optional plus and ten to fifteen
    digits, and nothing else. *)
Lemma phoneRegex_accepts (s : jsstring) :
  test phoneRegex s = true <-> plausible_phone s.
Proof.
  unfold phoneRegex, plausible_phone. rewrite test_anchored.
  set (tail := matcher (Cat (Rep (Cls is_digit) 10 15) Eol) (fun _ _ => true)).
  change (matcher (Cat (Rep (Chr (chr "+")) 0 1)
            (Cat (Rep (Cls is_digit) 10 15) Eol)) (fun _ _ => true) 0 s)
    with (match s with
          | x :: s' => if char_eqb x (chr "+") then tail 1 s' else false
          | [] => false
          end || tail 0 s).
  assert (Htail : forall i t, tail i t = true
                    <-> 10 <= length t <= 15 /\ all_digits t).
  { intros i t. unfold tail.
    change (matcher (Cat (Rep (Cls is_digit) 10 15) Eol) (fun _ _ => true))
      with (matcher (Rep (Cls is_digit) 10 15) (matcher Eol (fun _ _ => true))).
    rewrite rep_class by lia. split.
    - intros (ds & rest & -> & Hl & Hp & Hk).
      apply eol_accepts in Hk. subst rest. now rewrite app_nil_r.
    - intros [Hl Hp]. exists t, []. rewrite app_nil_r.
      repeat split; auto; lia. }
  rewrite orb_true_iff. split.
  - intros [H|H].
    + destruct s as [|x s]; [discriminate|]. unfold char_eqb in H.
      destruct (N.eqb_spec x (chr "+")) as [->|Hx]; [|discriminate].
      apply Htail in H as [Hl Hp].
      exists (lit "+"), s. repeat split; auto; lia.
    + apply Htail in H as [Hl Hp].
      exists [], s. repeat split; auto; lia.
  - intros (sign & ds & [->| ->] & Hl & Hp & ->).
    + right. now apply Htail.
    + left. simpl. apply Htail. auto.
Qed.

End Anchors.

(* ================================================================== *)
(** ** The phone normaliser *)
(* ================================================================== *)

Section PhoneNormalizer.

Lemma formatPhoneInput_display (input : jsstring) :
  formatPhoneInput input = display (firstn 10 (digits_of input)).
Proof.
  unfold formatPhoneInput, display.
  rewrite strip_nondigits, !substring_prefix, !substring_suffix.
  rewrite substring_middle by lia. reflexivity.
Qed.

Lemma digits_of_display (d : jsstring) :
  all_digits d -> digits_of (display d) = d.
Proof.
  intros Hd. unfold display.
  destruct (length d <=? 3); [now apply digits_of_fixed|].
  destruct (length d <=? 6).
  - rewrite !digits_of_app.
    rewrite (digits_of_fixed (all_digits_firstn 3 Hd)).
    rewrite (digits_of_fixed (all_digits_skipn 3 Hd)).
    apply (firstn_skipn 3 d).
  - rewrite !digits_of_app.
    rewrite (digits_of_fixed (all_digits_firstn 3 Hd)).
    rewrite (digits_of_fixed (all_digits_firstn 3 (all_digits_skipn 3 Hd))).
    rewrite (digits_of_fixed (all_digits_skipn 6 Hd)).
    change (firstn 3 d ++ firstn 3 (skipn 3 d) ++ skipn (3 + 3) d = d).
    rewrite <- (skipn_skipn 3 3 d), firstn_skipn. apply firstn_skipn.
Qed.

Lemma formatPhoneToUS_digits (phone : jsstring) :
  formatPhoneToUS phone =
  let digitsOnly := digits_of phone in
  if Nat.eqb (length digitsOnly) 11 && startsWith digitsOnly (lit "1") then
    lit "+" ++ digitsOnly
  else if Nat.eqb (length digitsOnly) 10 then lit "+1" ++ digitsOnly
  else if startsWith phone (lit "+") then stripped phone
  else digitsOnly.
Proof.
  unfold formatPhoneToUS. now rewrite strip_nondigits, strip_separators.
Qed.

(** C4: a string of eleven digits that starts with 1 gets a plus in
    front; a string of exactly ten digits gets +1 in front. *)
Theorem formatPhoneToUS_canonical (s : jsstring) :
  all_digits s ->
  (length s = 11 -> (exists t, s = chr "1" :: t) ->
   formatPhoneToUS s = lit "+" ++ s)
  /\ (length s = 10 -> formatPhoneToUS s = lit "+1" ++ s).
Proof.
  intros Hd. rewrite formatPhoneToUS_digits, (digits_of_fixed Hd). cbv zeta.
  split.
  - intros Hl Hs. apply startsWith_char in Hs.
    change (lit "1") with [chr "1"]. now rewrite Hl, Hs.
  - intros Hl. now rewrite Hl.
Qed.

Lemma formatPhoneToUS_canonical_witness :
  formatPhoneToUS (lit "15551234567") = lit "+15551234567"
  /\ formatPhoneToUS (lit "5551234567") = lit "+15551234567".
Proof.
  split.
  - apply (@formatPhoneToUS_canonical (lit "15551234567")).
    + reflexivity.
    + reflexivity.
    + now exists (lit "5551234567").
  - apply (@formatPhoneToUS_canonical (lit "5551234567")); reflexivity.
Defined.

(** C5: when the digits are neither ten, nor eleven with a leading 1, an
    input that starts with a plus comes back with whitespace, hyphens and
    parentheses removed, however many digits it has. *)
Theorem formatPhoneToUS_plus_passthrough (input : jsstring) :
  length (digits_of input) <> 10 ->
  ~ (length (digits_of input) = 11
     /\ exists t, digits_of input = chr "1" :: t) ->
  (exists t, input = chr "+" :: t) ->
  formatPhoneToUS input = stripped input.
Proof.
  intros H10 H11 Hplus. rewrite formatPhoneToUS_digits. cbv zeta.
  apply startsWith_char in Hplus. change (lit "+") with [chr "+"].
  rewrite Hplus.
  destruct (Nat.eqb_spec (length (digits_of input)) 10); [contradiction|].
  destruct (Nat.eqb_spec (length (digits_of input)) 11) as [E|E];
    [|reflexivity].
  destruct (startsWith (digits_of input) (lit "1")) eqn:Hs; [|reflexivity].
  exfalso. apply H11. split; [exact E|]. now apply startsWith_char.
Qed.

Lemma formatPhoneToUS_plus_passthrough_witness :
  formatPhoneToUS (lit "+123") = lit "+123"
  /\ formatPhoneToUS (lit "+44 (20) 7946-0958") = lit "+442079460958".
Proof.
  split.
  - apply (@formatPhoneToUS_plus_passthrough (lit "+123")).
    + discriminate.
    + intros [H _]. discriminate.
    + now exists (lit "123").
  - apply (@formatPhoneToUS_plus_passthrough (lit "+44 (20) 7946-0958")).
    + discriminate.
    + intros [H _]. discriminate.
    + now exists (lit "44 (20) 7946-0958").
Defined.

(** C6: the formatter keeps the digits of the input, at most the first
    ten; up to three digits are shown as they are, four to six as
    (XXX) XXX with a partial last group, seven to ten as (XXX) XXX-XXXX,
    the last group being complete at ten digits. *)
Theorem formatPhoneInput_shape (input : jsstring) :
  let d := firstn 10 (digits_of input) in
  let out := formatPhoneInput input in
  (length d <= 10 /\ all_digits d)
  /\ (length d <= 3 -> out = d)
  /\ (4 <= length d <= 6 ->
      exists a b, d = a ++ b /\ length a = 3 /\ length b = length d - 3
                  /\ out = lit "(" ++ a ++ lit ") " ++ b)
  /\ (7 <= length d <= 10 ->
      exists a b c, d = a ++ b ++ c /\ length a = 3 /\ length b = 3
                    /\ length c = length d - 6
                    /\ out = lit "(" ++ a ++ lit ") " ++ b ++ lit "-" ++ c)
  /\ (10 <= length (digits_of input) ->
      exists a b c, d = a ++ b ++ c /\ length a = 3 /\ length b = 3
                    /\ length c = 4
                    /\ out = lit "(" ++ a ++ lit ") " ++ b ++ lit "-" ++ c).
Proof.
  intros d out. unfold out. rewrite formatPhoneInput_display. fold d.
  assert (Hlen : length d = Nat.min 10 (length (digits_of input))).
  { unfold d. apply length_firstn. }
  assert (Hfull : 7 <= length d ->
    exists a b c, d = a ++ b ++ c /\ length a = 3 /\ length b = 3
                  /\ length c = length d - 6
                  /\ display d = lit "(" ++ a ++ lit ") " ++ b ++ lit "-" ++ c).
  { intros H. exists (firstn 3 d), (firstn 3 (skipn 3 d)), (skipn 6 d).
    unfold display.
    destruct (Nat.leb_spec (length d) 3); [lia|].
    destruct (Nat.leb_spec (length d) 6); [lia|].
    repeat split.
    - change (skipn 6 d) with (skipn (3 + 3) d).
      rewrite <- (skipn_skipn 3 3 d), firstn_skipn. symmetry.
      apply firstn_skipn.
    - apply firstn_length_le. lia.
    - apply firstn_length_le. rewrite length_skipn. lia.
    - apply length_skipn. }
  repeat split.
  - lia.
  - unfold d. apply all_digits_firstn, digits_of_all_digits.
  - intros H. unfold display.
    destruct (Nat.leb_spec (length d) 3); [reflexivity|lia].
  - intros H. exists (firstn 3 d), (skipn 3 d). unfold display.
    destruct (Nat.leb_spec (length d) 3); [lia|].
    destruct (Nat.leb_spec (length d) 6); [|lia].
    repeat split.
    + symmetry. apply firstn_skipn.
    + apply firstn_length_le. lia.
    + apply length_skipn.
  - intros H. apply Hfull. lia.
  - intros H. destruct Hfull as (a & b & c & H1 & H2 & H3 & H4 & H5); [lia|].
    exists a, b, c. repeat split; auto. lia.
Qed.

Lemma formatPhoneInput_shape_witness :
  formatPhoneInput (lit "55") = lit "55"
  /\ (exists a b, lit "55512" = a ++ b /\ length a = 3 /\ length b = 2
        /\ formatPhoneInput (lit "555-12")
           = lit "(" ++ a ++ lit ") " ++ b)
  /\ (exists a b c, lit "5551234567" = a ++ b ++ c /\ length a = 3
        /\ length b = 3 /\ length c = 4
        /\ formatPhoneInput (lit "(555) 123-45678")
           = lit "(" ++ a ++ lit ") " ++ b ++ lit "-" ++ c).
Proof.
  split; [|split].
  - apply (formatPhoneInput_shape (lit "55")). simpl. lia.
  - apply (formatPhoneInput_shape (lit "555-12")). simpl. lia.
  - destruct (formatPhoneInput_shape (lit "(555) 123-45678"))
      as (_ & _ & _ & _ & H).
    apply H. simpl. lia.
Defined.

(** C7: [validatePhone] is a total boolean test that holds exactly of the
    inputs which, once whitespace, hyphens and parentheses are removed,
    are an optional plus followed by ten to fifteen digits. *)
Theorem validatePhone_spec :
  (forall input,
     validatePhone input = true <-> plausible_phone (stripped input))
  /\ (forall input, validatePhone input = true \/ validatePhone input = false)
  /\ validatePhone (lit "555-123-4567") = true
  /\ validatePhone (lit "+15551234567") = true
  /\ validatePhone (lit "123") = false.
Proof.
  repeat split; try reflexivity.
  - unfold validatePhone. rewrite strip_separators.
    apply phoneRegex_accepts.
  - unfold validatePhone. rewrite strip_separators.
    apply phoneRegex_accepts.
  - intros input. destruct (validatePhone input); auto.
Qed.

(** C8: formatting the formatter's own output changes nothing. *)
Theorem formatPhoneInput_idempotent (x : jsstring) :
  formatPhoneInput (formatPhoneInput x) = formatPhoneInput x.
Proof.
  rewrite !formatPhoneInput_display.
  set (d := firstn 10 (digits_of x)).
  assert (Hd : all_digits d).
  { unfold d. apply all_digits_firstn, digits_of_all_digits. }
  rewrite (digits_of_display Hd).
  unfold d. now rewrite firstn_firstn.
Qed.

End PhoneNormalizer.

(* ================================================================== *)
(** ** The phone endpoint: one lemma per path through the handler *)
(* ================================================================== *)

Section UpdateCustomerPhone.

Context {PS : Type} (stripe : Stripe PS).

Lemma field_not_given (v : value) :
  ~ given v ->
  negb (truthy v) || negb (is_string_tag (typeof v)) || trimmed_empty v
  = true.
Proof.
  intros H. destruct v; try reflexivity; simpl.
  - now destruct b.
  - now rewrite orb_true_r.
  - rewrite orb_false_r.
    destruct (Nat.eqb_spec (length (trim s)) 0) as [E|E];
      [apply orb_true_r|].
    exfalso. apply H. exists s. split; [reflexivity|].
    intros Hb. now apply E, trim_empty.
Qed.

Lemma field_given (v : value) :
  given v ->
  negb (truthy v) || negb (is_string_tag (typeof v)) || trimmed_empty v
  = false.
Proof.
  intros (s & -> & Hs). simpl. rewrite orb_false_r.
  destruct (Nat.eqb_spec (length (trim s)) 0) as [E|E].
  - exfalso. now apply Hs, trim_empty.
  - destruct s; [|reflexivity]. exfalso. now apply Hs.
Qed.

Lemma blank_stripped (s : jsstring) : blank s -> stripped s = [].
Proof.
  unfold blank, stripped, is_separator.
  induction s as [|c s IH]; simpl; [reflexivity|].
  intros H. apply andb_true_iff in H as [Hc Hs].
  rewrite Hc. simpl. auto.
Qed.

Lemma canonical_given (s : jsstring) :
  canonical_us (stripped s) -> given (VString s).
Proof.
  intros (ds & H & _). exists s. split; [reflexivity|].
  intros Hb. rewrite (blank_stripped Hb) in H. discriminate.
Qed.

Variable body : list (jsstring * value).
Variable ps : PS.

Lemma run_no_customer :
  ~ given (get body (lit "customerId")) ->
  serve (update_customer_phone stripe body) ps
  = rejected ps (error_response 400 "Customer ID is required"
                   (lit "Please provide a valid customer ID")).
Proof.
  intros H. unfold serve, update_customer_phone, try_catch. cbv zeta.
  now rewrite (field_not_given H).
Qed.

Lemma run_no_phone :
  given (get body (lit "customerId")) ->
  ~ given (get body (lit "phone")) ->
  serve (update_customer_phone stripe body) ps
  = rejected ps (error_response 400 "Phone number is required"
                   (lit "Please provide a valid phone number")).
Proof.
  intros Hc H. unfold serve, update_customer_phone, try_catch. cbv zeta.
  now rewrite (field_given Hc), (field_not_given H).
Qed.

Lemma run_bad_format (s : jsstring) :
  given (get body (lit "customerId")) ->
  get body (lit "phone") = VString s ->
  ~ blank s ->
  ~ canonical_us (stripped s) ->
  serve (update_customer_phone stripe body) ps
  = rejected ps (error_response 400 "Invalid phone format"
      (lit "Phone number must be a valid US number in format +1XXXXXXXXXX")).
Proof.
  intros Hc Hp Hb Hn.
  assert (Hg : given (get body (lit "phone"))) by (exists s; auto).
  unfold serve, update_customer_phone, try_catch. cbv zeta.
  rewrite (field_given Hc), (field_given Hg), Hp.
  unfold string_of. rewrite strip_separators.
  destruct (test usPhoneRegex (stripped s)) eqn:E; [|reflexivity].
  exfalso. now apply Hn, usPhoneRegex_accepts.
Qed.

Lemma run_accepted (s : jsstring) :
  given (get body (lit "customerId")) ->
  get body (lit "phone") = VString s ->
  canonical_us (stripped s) ->
  serve (update_customer_phone stripe body) ps
  = match customers_update stripe (get body (lit "customerId"))
            (VObject [(lit "phone", VString (stripped s));
                      (lit "metadata",
                       VObject [(lit "phone", VString (stripped s))])]) ps
    with
    | (Ret _, ps') =>
        {| provider := ps';
           calls := [phone_update (get body (lit "customerId")) (stripped s)];
           console := [];
           res := success_response |}
    | (Throw e, ps') =>
        {| provider := ps';
           calls := [phone_update (get body (lit "customerId")) (stripped s)];
           console := [(lit "Error updating customer phone:", e)];
           res := error_response 500 "Failed to update customer phone"
                    (message e) |}
    end.
Proof.
  intros Hc Hp Hs.
  assert (Hg : given (get body (lit "phone"))).
  { rewrite Hp. now apply canonical_given. }
  unfold serve, update_customer_phone, try_catch. cbv zeta.
  rewrite (field_given Hc), (field_given Hg), Hp.
  unfold string_of. rewrite strip_separators.
  rewrite (proj2 (usPhoneRegex_accepts (stripped s)) Hs).
  unfold bind, await_customers_update, provider_call, fresh. simpl.
  destruct (customers_update stripe (get body (lit "customerId")) _ ps)
    as [[c|e] ps']; reflexivity.
Qed.

(** Whether a field was given can be decided, so the paths above cover
    every request. *)
Lemma given_dec (v : value) : given v \/ ~ given v.
Proof.
  destruct v; try (right; intros (s' & H & _); discriminate).
  destruct (forallb is_space s) eqn:E.
  - right. intros (s' & H & Hb). injection H as <-. now apply Hb.
  - left. exists s. split; [reflexivity|]. unfold blank. congruence.
Qed.

Lemma canonical_dec (s : jsstring) : canonical_us s \/ ~ canonical_us s.
Proof.
  destruct (test usPhoneRegex s) eqn:E.
  - left. now apply usPhoneRegex_accepts.
  - right. intros H. apply usPhoneRegex_accepts in H. congruence.
Qed.

(** C1: the phone endpoint validates in order and stops at the first
    failure.  Without a customer id (none, or a blank one) the answer is
    400 "Customer ID is required"; otherwise, without a phone, 400 "Phone
    number is required"; otherwise, when the phone with whitespace,
    hyphens and parentheses removed is not +1 and ten digits, 400 "Invalid
    phone format".  In each case the provider is not called. *)
Theorem update_phone_validation :
  let w := serve (update_customer_phone stripe body) ps in
  (~ given (get body (lit "customerId")) ->
   res w = error_response 400 "Customer ID is required"
             (lit "Please provide a valid customer ID")
   /\ calls w = [] /\ provider w = ps)
  /\ (given (get body (lit "customerId")) ->
      ~ given (get body (lit "phone")) ->
      res w = error_response 400 "Phone number is required"
                (lit "Please provide a valid phone number")
      /\ calls w = [] /\ provider w = ps)
  /\ (given (get body (lit "customerId")) ->
      forall s, get body (lit "phone") = VString s -> ~ blank s ->
      ~ canonical_us (stripped s) ->
      res w = error_response 400 "Invalid phone format"
                (lit "Phone number must be a valid US number in format +1XXXXXXXXXX")
      /\ calls w = [] /\ provider w = ps).
Proof.
  cbv zeta. split; [|split].
  - intros Hc. now rewrite (run_no_customer Hc).
  - intros Hc Hp. now rewrite (run_no_phone Hc Hp).
  - intros Hc s Hp Hb Hs. now rewrite (run_bad_format Hc Hp Hb Hs).
Qed.

(** C2, amended: a request with a customer id and a phone that is, once
    cleaned, +1 and ten digits makes exactly one provider call, an update
    that sets the phone field and the metadata phone field to the same
    value; when that call succeeds the answer is 200 with
    [{success: true}]. *)
Theorem update_phone_success (s : jsstring) :
  given (get body (lit "customerId")) ->
  get body (lit "phone") = VString s ->
  canonical_us (stripped s) ->
  let w := serve (update_customer_phone stripe body) ps in
  calls w = [phone_update (get body (lit "customerId")) (stripped s)]
  /\ (forall c ps',
        customers_update stripe (get body (lit "customerId"))
          (VObject [(lit "phone", VString (stripped s));
                    (lit "metadata",
                     VObject [(lit "phone", VString (stripped s))])]) ps
        = (Ret c, ps') ->
        res w = success_response).
Proof.
  intros Hc Hp Hs. cbv zeta. rewrite (run_accepted Hc Hp Hs). split.
  - now destruct (customers_update stripe _ _ ps) as [[c|e] ps'].
  - intros c ps' E. now rewrite E.
Qed.

(** The other half of the accepted path: a provider failure is answered
    with 500 and the provider's message. *)
Lemma update_phone_provider_failure (s : jsstring) (e : Error) (ps' : PS) :
  given (get body (lit "customerId")) ->
  get body (lit "phone") = VString s ->
  canonical_us (stripped s) ->
  customers_update stripe (get body (lit "customerId"))
    (VObject [(lit "phone", VString (stripped s));
              (lit "metadata",
               VObject [(lit "phone", VString (stripped s))])]) ps
  = (Throw e, ps') ->
  res (serve (update_customer_phone stripe body) ps)
  = error_response 500 "Failed to update customer phone" (message e).
Proof.
  intros Hc Hp Hs E. now rewrite (run_accepted Hc Hp Hs), E.
Qed.

(** C10: whatever reaches the provider is the cleaned phone.  Every update
    call the endpoint makes carries, in the phone field and in the
    metadata phone field, the request's phone with whitespace, hyphens
    and parentheses removed, and that value is +1 and ten digits; and
    every request that passes validation makes that call. *)
Theorem update_phone_forwards_cleaned :
  let w := serve (update_customer_phone stripe body) ps in
  (forall cid params,
     In (CustomersUpdate cid params) (calls w) ->
     exists s,
       get body (lit "phone") = VString s
       /\ canonical_us (stripped s)
       /\ cid = get body (lit "customerId")
       /\ params = VObject [(lit "phone", VString (stripped s));
                            (lit "metadata",
                             VObject [(lit "phone", VString (stripped s))])])
  /\ (forall s,
        given (get body (lit "customerId")) ->
        get body (lit "phone") = VString s ->
        canonical_us (stripped s) ->
        calls w = [phone_update (get body (lit "customerId")) (stripped s)]).
Proof.
  cbv zeta. split.
  - intros cid params Hin.
    destruct (given_dec (get body (lit "customerId"))) as [Hc|Hc].
    2:{ rewrite (run_no_customer Hc) in Hin. contradiction. }
    destruct (given_dec (get body (lit "phone"))) as [Hg|Hg].
    2:{ rewrite (run_no_phone Hc Hg) in Hin. contradiction. }
    destruct Hg as (s & Hp & Hb).
    destruct (canonical_dec (stripped s)) as [Hs|Hs].
    2:{ rewrite (run_bad_format Hc Hp Hb Hs) in Hin. contradiction. }
    rewrite (run_accepted Hc Hp Hs) in Hin.
    exists s.
    assert (E : CustomersUpdate cid params
                = phone_update (get body (lit "customerId")) (stripped s)).
    { destruct (customers_update stripe _ _ ps) as [[c|e] ps'];
        simpl in Hin; destruct Hin as [H|[]]; now symmetry. }
    injection E as -> ->. auto.
  - intros s Hc Hp Hs. rewrite (run_accepted Hc Hp Hs).
    now destruct (customers_update stripe _ _ ps) as [[c|e] ps'].
Qed.

End UpdateCustomerPhone.

Section UpdateCustomerPhoneRuns.

Lemma cus_123_given : given (VString (lit "cus_123")).
Proof. exists (lit "cus_123"). split; [reflexivity|discriminate]. Qed.

Lemma absent_not_given : ~ given VUndefined.
Proof. intros (s & H & _). discriminate. Qed.

Lemma update_phone_validation_witness :
  res (serve (update_customer_phone stub_up
                [(lit "phone", VString (lit "+15551234567"))]) tt)
  = error_response 400 "Customer ID is required"
      (lit "Please provide a valid customer ID")
  /\ res (serve (update_customer_phone stub_up
                   [(lit "customerId", VString (lit "cus_123"))]) tt)
     = error_response 400 "Phone number is required"
         (lit "Please provide a valid phone number")
  /\ (res (serve (update_customer_phone stub_up
                    (phone_body "cus_123" "5551234")) tt)
      = error_response 400 "Invalid phone format"
          (lit "Phone number must be a valid US number in format +1XXXXXXXXXX")
      /\ calls (serve (update_customer_phone stub_up
                         (phone_body "cus_123" "5551234")) tt) = []
      /\ provider (serve (update_customer_phone stub_up
                            (phone_body "cus_123" "5551234")) tt) = tt).
Proof.
  split; [|split].
  - apply (update_phone_validation stub_up
             [(lit "phone", VString (lit "+15551234567"))] tt).
    exact absent_not_given.
  - apply (update_phone_validation stub_up
             [(lit "customerId", VString (lit "cus_123"))] tt).
    + exact cus_123_given.
    + exact absent_not_given.
  - apply (update_phone_validation stub_up
             (phone_body "cus_123" "5551234") tt)
      with (s := lit "5551234").
    + exact cus_123_given.
    + reflexivity.
    + discriminate.
    + intros (ds & H & _). vm_compute in H. discriminate.
Defined.

Lemma canonical_example : canonical_us (lit "+15551234567").
Proof. exists (lit "5551234567"). repeat split. Qed.

Lemma update_phone_success_witness :
  calls (serve (update_customer_phone stub_up
                  (phone_body "cus_123" "+15551234567")) tt)
  = [phone_update (VString (lit "cus_123")) (lit "+15551234567")]
  /\ res (serve (update_customer_phone stub_up
                   (phone_body "cus_123" "+15551234567")) tt)
     = success_response.
Proof.
  destruct (@update_phone_success unit stub_up
              (phone_body "cus_123" "+15551234567") tt
              (lit "+15551234567") cus_123_given eq_refl canonical_example)
    as [Hcalls Hres].
  split.
  - exact Hcalls.
  - apply (Hres cus_123 tt). reflexivity.
Defined.

(** C2 as stated fails when the provider rejects the update: the request
    is valid, the one update call is made, and the answer is 500. *)
Lemma update_phone_success_counterexample :
  let body := phone_body "cus_123" "+15551234567" in
  let w := serve (update_customer_phone stub_down body) tt in
  given (get body (lit "customerId"))
  /\ get body (lit "phone") = VString (lit "+15551234567")
  /\ canonical_us (stripped (lit "+15551234567"))
  /\ calls w = [phone_update (VString (lit "cus_123")) (lit "+15551234567")]
  /\ res w = error_response 500 "Failed to update customer phone"
               (lit "Too many requests")
  /\ res w <> success_response.
Proof.
  cbv zeta. repeat split.
  - exact cus_123_given.
  - exact canonical_example.
  - discriminate.
Qed.

Lemma update_phone_forwards_cleaned_witness :
  calls (serve (update_customer_phone stub_up
                  (phone_body "cus_123" "+1 (555) 123-4567")) tt)
  = [phone_update (VString (lit "cus_123")) (lit "+15551234567")]
  /\ exists s,
       VString (lit "+1 (555) 123-4567") = VString s
       /\ canonical_us (stripped s)
       /\ stripped s = lit "+15551234567".
Proof.
  destruct (@update_phone_forwards_cleaned unit stub_up
              (phone_body "cus_123" "+1 (555) 123-4567") tt)
    as [Hany Hall].
  split.
  - apply (Hall (lit "+1 (555) 123-4567")).
    + exact cus_123_given.
    + reflexivity.
    + exact canonical_example.
  - destruct (Hany (VString (lit "cus_123"))
                (VObject [(lit "phone", VString (lit "+15551234567"));
                          (lit "metadata",
                           VObject [(lit "phone",
                                     VString (lit "+15551234567"))])]))
      as (s & Hp & Hs & _ & Hparams).
    + left. reflexivity.
    + exists s. repeat split; [exact Hp|exact Hs|].
      injection Hparams as E _. now symmetry.
Defined.

End UpdateCustomerPhoneRuns.

(* ================================================================== *)
(** ** The setup-session endpoint *)
(* ================================================================== *)

Section CreateSetupSession.

Context {PS : Type} (stripe : Stripe PS) (env : Env) (ps : PS).

Lemma run_create_setup_session :
  serve (create_setup_session stripe env) ps
  = match customers_create stripe (customer_params env) ps with
    | (Throw e, ps1) =>
        {| provider := ps1;
           calls := [CustomersCreate (customer_params env)];
           console := [(lit "Error creating setup session:", e)];
           res := error_response 500 "Failed to create setup session"
                    (message e) |}
    | (Ret customer, ps1) =>
        match sessions_create stripe (session_params env customer) ps1 with
        | (Throw e, ps2) =>
            {| provider := ps2;
               calls := [CustomersCreate (customer_params env);
                         SessionsCreate (session_params env customer)];
               console := [(lit "Error creating setup session:", e)];
               res := error_response 500 "Failed to create setup session"
                        (message e) |}
        | (Ret session, ps2) =>
            {| provider := ps2;
               calls := [CustomersCreate (customer_params env);
                         SessionsCreate (session_params env customer)];
               console := [];
               res := {| statusCode := 200;
                         sent := Some (VObject
                           [(lit "clientSecret", client_secret session);
                            (lit "customerId", id customer)]) |} |}
        end
    end.
Proof.
  unfold serve, create_setup_session, try_catch, bind,
    await_customers_create, await_sessions_create, provider_call, fresh.
  simpl.
  destruct (customers_create stripe (customer_params env) ps)
    as [[customer|e] ps1]; [|reflexivity].
  simpl.
  destruct (sessions_create stripe (session_params env customer) ps1)
    as [[session|e] ps2]; reflexivity.
Qed.

(** C3: when the customer is created and then the session, the answer is
    200 and its body holds the session's client secret under
    [clientSecret] and the customer's id under [customerId], as the
    provider returned them. *)
Theorem create_setup_session_success
  (customer : Customer) (ps1 : PS) (session : Session) (ps2 : PS) :
  customers_create stripe (customer_params env) ps = (Ret customer, ps1) ->
  sessions_create stripe (session_params env customer) ps1
  = (Ret session, ps2) ->
  let w := serve (create_setup_session stripe env) ps in
  statusCode (res w) = 200%N
  /\ exists fields,
       sent (res w) = Some (VObject fields)
       /\ get fields (lit "clientSecret") = client_secret session
       /\ get fields (lit "customerId") = id customer.
Proof.
  intros Hc Hs. cbv zeta. rewrite run_create_setup_session, Hc, Hs.
  split; [reflexivity|]. eexists. split; [reflexivity|]. split; reflexivity.
Qed.

(** C9: when the customer creation fails, or the session creation after
    it, the answer is 500 with the error text "Failed to create setup
    session" and the provider's message; the failed call is not made
    again. *)
Theorem create_setup_session_failure :
  let w := serve (create_setup_session stripe env) ps in
  (forall e ps1,
     customers_create stripe (customer_params env) ps = (Throw e, ps1) ->
     res w = error_response 500 "Failed to create setup session" (message e)
     /\ calls w = [CustomersCreate (customer_params env)])
  /\ (forall customer ps1 e ps2,
        customers_create stripe (customer_params env) ps
        = (Ret customer, ps1) ->
        sessions_create stripe (session_params env customer) ps1
        = (Throw e, ps2) ->
        res w = error_response 500 "Failed to create setup session"
                  (message e)
        /\ calls w = [CustomersCreate (customer_params env);
                      SessionsCreate (session_params env customer)]).
Proof.
  cbv zeta. rewrite run_create_setup_session. split.
  - intros e ps1 Hc. now rewrite Hc.
  - intros customer ps1 e ps2 Hc Hs. now rewrite Hc, Hs.
Qed.

End CreateSetupSession.

Section CreateSetupSessionRuns.

Lemma create_setup_session_success_witness :
  let w := serve (create_setup_session stub_up demo_env) tt in
  statusCode (res w) = 200%N
  /\ exists fields,
       sent (res w) = Some (VObject fields)
       /\ get fields (lit "clientSecret")
          = VString (lit "cs_test_a1b2_secret_c3d4")
       /\ get fields (lit "customerId") = VString (lit "cus_123").
Proof.
  apply (@create_setup_session_success unit stub_up demo_env tt
           cus_123 tt cs_test tt); reflexivity.
Defined.

Lemma create_setup_session_failure_witness :
  (res (serve (create_setup_session stub_down demo_env) tt)
   = error_response 500 "Failed to create setup session"
       (lit "Too many requests")
   /\ calls (serve (create_setup_session stub_down demo_env) tt)
      = [CustomersCreate (customer_params demo_env)])
  /\ (res (serve (create_setup_session
                    (stub (Ret cus_123) (Throw rate_limited) (Ret cus_123))
                    demo_env) tt)
      = error_response 500 "Failed to create setup session"
          (lit "Too many requests")
      /\ calls (serve (create_setup_session
                         (stub (Ret cus_123) (Throw rate_limited)
                            (Ret cus_123))
                         demo_env) tt)
         = [CustomersCreate (customer_params demo_env);
            SessionsCreate (session_params demo_env cus_123)]).
Proof.
  split.
  - apply (@create_setup_session_failure unit stub_down demo_env tt)
      with (e := rate_limited) (ps1 := tt).
    reflexivity.
  - apply (@create_setup_session_failure unit
             (stub (Ret cus_123) (Throw rate_limited) (Ret cus_123))
             demo_env tt)
      with (customer := cus_123) (ps1 := tt) (e := rate_limited) (ps2 := tt);
      reflexivity.
Defined.

End CreateSetupSessionRuns.

(* ================================================================== *)
(** ** More on the phone normaliser *)
(* ================================================================== *)

Section PhoneNormalizerMore.

Lemma digit_not_separator (c : char) :
  is_digit c = true -> is_separator c = false.
Proof.
  unfold is_digit, is_separator, is_space, char_eqb.
  change (chr "-") with 45%N. change (chr "(") with 40%N.
  change (chr ")") with 41%N.
  rewrite andb_true_iff, !N.leb_le. intros [H1 H2].
  repeat match goal with
         | |- context [N.leb ?a ?b] => destruct (N.leb_spec a b); try lia
         | |- context [N.eqb ?a ?b] => destruct (N.eqb_spec a b); try lia
         end; reflexivity.
Qed.

Lemma digit_not_space (c : char) : is_space c = true -> is_digit c = false.
Proof.
  intros Hs. destruct (is_digit c) eqn:E; [|reflexivity].
  apply digit_not_separator in E. unfold is_separator in E.
  rewrite Hs in E. discriminate.
Qed.

Lemma digits_of_stripped (s : jsstring) :
  digits_of (stripped s) = digits_of s.
Proof.
  unfold digits_of, stripped. induction s as [|c s IH]; [reflexivity|].
  simpl. destruct (is_digit c) eqn:E.
  - rewrite (digit_not_separator c E). simpl. now rewrite E, IH.
  - destruct (is_separator c); simpl; [exact IH|now rewrite E, IH].
Qed.

Lemma stripped_fixed (s : jsstring) :
  forallb (fun c => negb (is_separator c)) s = true -> stripped s = s.
Proof.
  unfold stripped. induction s as [|c s IH]; simpl; [reflexivity|].
  intros H. apply andb_true_iff in H as [Hc Hs].
  now rewrite Hc, (IH Hs).
Qed.

Lemma stripped_idempotent (s : jsstring) : stripped (stripped s) = stripped s.
Proof.
  apply stripped_fixed. unfold stripped.
  apply forallb_forall. intros c Hc. now apply filter_In in Hc.
Qed.

Lemma stripped_digits (d : jsstring) : all_digits d -> stripped d = d.
Proof.
  intros Hd. apply stripped_fixed. apply forallb_forall. intros c Hc.
  unfold all_digits in Hd.
  rewrite (digit_not_separator c (proj1 (forallb_forall _ _) Hd c Hc)).
  reflexivity.
Qed.

Lemma canonical_stripped (p : jsstring) : canonical_us p -> stripped p = p.
Proof.
  intros (ds & -> & _ & Hd).
  change (stripped (lit "+1" ++ ds)) with (lit "+1" ++ stripped ds).
  now rewrite (stripped_digits Hd).
Qed.

Lemma digits_no_plus (d : jsstring) :
  all_digits d -> startsWith d (lit "+") = false.
Proof.
  destruct d as [|c d]; [reflexivity|]. unfold all_digits. simpl.
  intros H. apply andb_true_iff in H as [Hc _]. rewrite andb_true_r.
  unfold char_eqb.
  destruct (N.eqb_spec c 43) as [->|]; [|reflexivity].
  vm_compute in Hc. discriminate.
Qed.

Lemma canonical_plus_one (d : jsstring) :
  all_digits d -> length d = 10 -> canonical_us (lit "+1" ++ d).
Proof. intros Hd Hl. now exists d. Qed.

(** The four branches of [formatPhoneToUS], by what decides them. *)
Lemma formatPhoneToUS_eleven (x t : jsstring) :
  length (digits_of x) = 11 -> digits_of x = chr "1" :: t ->
  formatPhoneToUS x = chr "+" :: digits_of x.
Proof.
  intros Hl Ht. rewrite formatPhoneToUS_digits. cbv zeta.
  rewrite Hl, Ht. reflexivity.
Qed.

Lemma formatPhoneToUS_ten (x : jsstring) :
  length (digits_of x) = 10 ->
  formatPhoneToUS x = chr "+" :: chr "1" :: digits_of x.
Proof.
  intros Hl. rewrite formatPhoneToUS_digits. cbv zeta.
  rewrite Hl. reflexivity.
Qed.

Lemma formatPhoneToUS_neither (x : jsstring) :
  length (digits_of x) <> 10 ->
  ~ (length (digits_of x) = 11 /\ exists t, digits_of x = chr "1" :: t) ->
  formatPhoneToUS x
  = if startsWith x (lit "+") then stripped x else digits_of x.
Proof.
  intros H10 H11. rewrite formatPhoneToUS_digits. cbv zeta.
  destruct (Nat.eqb_spec (length (digits_of x)) 10); [contradiction|].
  destruct (Nat.eqb_spec (length (digits_of x)) 11) as [E|E];
    [|reflexivity].
  destruct (startsWith (digits_of x) (lit "1")) eqn:Hs; [|reflexivity].
  exfalso. apply H11. split; [exact E|]. now apply startsWith_char.
Qed.

Lemma formatPhoneToUS_branches (x : jsstring) :
  (length (digits_of x) = 11 /\ exists t, digits_of x = chr "1" :: t)
  \/ length (digits_of x) = 10
  \/ (length (digits_of x) <> 10
      /\ ~ (length (digits_of x) = 11
            /\ exists t, digits_of x = chr "1" :: t)).
Proof.
  destruct (Nat.eq_dec (length (digits_of x)) 10) as [E|E]; [now auto|].
  destruct (Nat.eq_dec (length (digits_of x)) 11) as [F|F].
  - destruct (digits_of x) as [|c t] eqn:D; [discriminate|].
    destruct (N.eq_dec c (chr "1")) as [->|Hc].
    + left. split; [exact F|]. now exists t.
    + right. right. split; [exact E|]. intros [_ [t' Ht]].
      injection Ht as Ht _. contradiction.
  - right. right. split; [exact E|]. intros [G _]. contradiction.
Qed.

Lemma digits_of_plus (s : jsstring) :
  digits_of (chr "+" :: s) = digits_of s.
Proof. reflexivity. Qed.

Lemma digits_of_one (s : jsstring) :
  digits_of (chr "1" :: s) = chr "1" :: digits_of s.
Proof. reflexivity. Qed.

(** X1: canonicalising twice is canonicalising once. *)
Theorem formatPhoneToUS_idempotent (x : jsstring) :
  formatPhoneToUS (formatPhoneToUS x) = formatPhoneToUS x.
Proof.
  pose proof (digits_of_all_digits x) as Hd.
  destruct (formatPhoneToUS_branches x) as [[Hl [t Ht]]|[Hl|[H10 H11]]].
  - rewrite (formatPhoneToUS_eleven x Hl Ht).
    rewrite (@formatPhoneToUS_eleven (chr "+" :: digits_of x) t);
      rewrite digits_of_plus, (digits_of_fixed Hd); auto.
  - rewrite (formatPhoneToUS_ten x Hl).
    rewrite (@formatPhoneToUS_eleven (chr "+" :: chr "1" :: digits_of x)
               (digits_of x));
      rewrite digits_of_plus, digits_of_one, (digits_of_fixed Hd); auto.
    simpl. now rewrite Hl.
  - rewrite (formatPhoneToUS_neither x H10 H11).
    destruct (startsWith x (lit "+")) eqn:Ep.
    + rewrite formatPhoneToUS_neither; rewrite ?digits_of_stripped; auto.
      apply startsWith_char in Ep as [u ->].
      change (stripped (chr "+" :: u)) with (chr "+" :: stripped u).
      change (startsWith (chr "+" :: stripped u) (lit "+")) with true.
      cbv iota.
      change (chr "+" :: stripped u) with (stripped (chr "+" :: u)).
      apply stripped_idempotent.
    + rewrite formatPhoneToUS_neither; rewrite ?(digits_of_fixed Hd); auto.
      now rewrite (digits_no_plus Hd).
Qed.

Lemma canonical_result (x : jsstring) :
  canonical_us (formatPhoneToUS x)
  <-> length (digits_of x) = 10
      \/ (length (digits_of x) = 11
          /\ exists t, digits_of x = chr "1" :: t).
Proof.
  pose proof (digits_of_all_digits x) as Hd.
  destruct (formatPhoneToUS_branches x) as [[Hl [t Ht]]|[Hl|[H10 H11]]].
  - rewrite (formatPhoneToUS_eleven x Hl Ht). split.
    + intros _. right. split; [exact Hl|]. now exists t.
    + intros _. rewrite Ht in *. exists t. simpl in Hl.
      unfold all_digits in Hd. simpl in Hd.
      repeat split; [lia|exact Hd].
  - rewrite (formatPhoneToUS_ten x Hl). split; [now left|].
    intros _. now apply canonical_plus_one.
  - rewrite (formatPhoneToUS_neither x H10 H11). split.
    + destruct (startsWith x (lit "+")).
      * intros (ds & E & Hl & Hds). right.
        rewrite <- digits_of_stripped, E.
        change (digits_of (lit "+1" ++ ds)) with (chr "1" :: digits_of ds).
        rewrite (digits_of_fixed Hds). simpl. split; [lia|]. now exists ds.
      * intros (ds & E & _). exfalso. rewrite E in Hd.
        unfold all_digits in Hd. discriminate.
    + intros [E|E]; contradiction.
Qed.

(** X2: the result is a canonical US number exactly when the input holds
    ten digits, or eleven digits the first of which is 1.  No other input
    is turned into a number the phone endpoint accepts. *)
Theorem formatPhoneToUS_canonical_iff (x : jsstring) :
  canonical_us (formatPhoneToUS x)
  <-> length (digits_of x) = 10
      \/ (length (digits_of x) = 11
          /\ exists t, digits_of x = chr "1" :: t).
Proof. apply canonical_result. Qed.

(** X3: no digit is dropped or changed.  The digits of the result are the
    digits of the input, with the country code 1 put in front when there
    are exactly ten. *)
Theorem formatPhoneToUS_keeps_digits (x : jsstring) :
  digits_of (formatPhoneToUS x)
  = if Nat.eqb (length (digits_of x)) 10 then chr "1" :: digits_of x
    else digits_of x.
Proof.
  pose proof (digits_of_all_digits x) as Hd.
  destruct (formatPhoneToUS_branches x) as [[Hl [t Ht]]|[Hl|[H10 H11]]].
  - rewrite (formatPhoneToUS_eleven x Hl Ht), Hl, digits_of_plus.
    now apply digits_of_fixed.
  - rewrite (formatPhoneToUS_ten x Hl), Hl, digits_of_plus, digits_of_one.
    now rewrite (digits_of_fixed Hd).
  - rewrite (formatPhoneToUS_neither x H10 H11).
    destruct (Nat.eqb_spec (length (digits_of x)) 10); [contradiction|].
    destruct (startsWith x (lit "+")).
    + apply digits_of_stripped.
    + now apply digits_of_fixed.
Qed.

Lemma formatPhoneInput_digits (x : jsstring) :
  digits_of (formatPhoneInput x) = firstn 10 (digits_of x).
Proof.
  rewrite formatPhoneInput_display. apply digits_of_display.
  apply all_digits_firstn, digits_of_all_digits.
Qed.

(** X4: the display form never exceeds the fourteen characters the phone
    field allows. *)
Theorem formatPhoneInput_fits (x : jsstring) :
  length (formatPhoneInput x) <= 14.
Proof.
  rewrite formatPhoneInput_display.
  set (d := firstn 10 (digits_of x)).
  assert (Hl : length d <= 10).
  { unfold d. rewrite length_firstn. lia. }
  unfold display.
  destruct (Nat.leb_spec (length d) 3); [lia|].
  destruct (Nat.leb_spec (length d) 6).
  - rewrite !length_app, length_firstn, length_skipn.
    change (length (lit "(")) with 1. change (length (lit ") ")) with 2.
    lia.
  - rewrite !length_app, !length_firstn, !length_skipn.
    change (length (lit "(")) with 1. change (length (lit ") ")) with 2.
    change (length (lit "-")) with 1. lia.
Qed.

(** X5: the display form only adds punctuation the server removes.
    Taking the non-digits out of it, or just whitespace, hyphens and
    parentheses, gives back the first ten digits of the input. *)
Theorem formatPhoneInput_round_trip (x : jsstring) :
  digits_of (formatPhoneInput x) = firstn 10 (digits_of x)
  /\ stripped (formatPhoneInput x) = firstn 10 (digits_of x).
Proof.
  split; [apply formatPhoneInput_digits|].
  rewrite formatPhoneInput_display.
  set (d := firstn 10 (digits_of x)).
  assert (Hd : all_digits d).
  { unfold d. apply all_digits_firstn, digits_of_all_digits. }
  unfold display, stripped.
  destruct (length d <=? 3); [now apply stripped_digits|].
  destruct (length d <=? 6).
  - rewrite !filter_app.
    change (filter (fun c => negb (is_separator c)) (lit "(")) with (@nil char).
    change (filter (fun c => negb (is_separator c)) (lit ") ")) with (@nil char).
    fold (stripped (firstn 3 d)). fold (stripped (skipn 3 d)).
    rewrite (stripped_digits (all_digits_firstn 3 Hd)).
    rewrite (stripped_digits (all_digits_skipn 3 Hd)).
    apply (firstn_skipn 3 d).
  - rewrite !filter_app.
    change (filter (fun c => negb (is_separator c)) (lit "(")) with (@nil char).
    change (filter (fun c => negb (is_separator c)) (lit ") ")) with (@nil char).
    change (filter (fun c => negb (is_separator c)) (lit "-")) with (@nil char).
    fold (stripped (firstn 3 d)). fold (stripped (firstn 3 (skipn 3 d))).
    fold (stripped (skipn 6 d)).
    rewrite (stripped_digits (all_digits_firstn 3 Hd)).
    rewrite (stripped_digits (all_digits_firstn 3 (all_digits_skipn 3 Hd))).
    rewrite (stripped_digits (all_digits_skipn 6 Hd)).
    change (firstn 3 d ++ firstn 3 (skipn 3 d) ++ skipn (3 + 3) d = d).
    rewrite <- (skipn_skipn 3 3 d), firstn_skipn. apply firstn_skipn.
Qed.

(** X6: from the display form to the wire form.  Canonicalising what the
    formatter shows gives a canonical US number exactly when the text
    typed holds at least ten digits, and the number is then +1 followed
    by the first ten of them. *)
Theorem display_then_canonical (x : jsstring) :
  (canonical_us (formatPhoneToUS (formatPhoneInput x))
   <-> 10 <= length (digits_of x))
  /\ (10 <= length (digits_of x) ->
      formatPhoneToUS (formatPhoneInput x)
      = lit "+1" ++ firstn 10 (digits_of x)).
Proof.
  assert (Hl : length (digits_of (formatPhoneInput x))
               = Nat.min 10 (length (digits_of x))).
  { rewrite formatPhoneInput_digits. apply length_firstn. }
  split.
  - rewrite canonical_result, Hl. split.
    + intros [H|[H _]]; lia.
    + intros H. left. lia.
  - intros H. rewrite formatPhoneToUS_ten by lia.
    now rewrite formatPhoneInput_digits.
Qed.

Lemma display_then_canonical_witness :
  formatPhoneToUS (formatPhoneInput (lit "555123456789"))
  = lit "+15551234567".
Proof.
  apply (proj2 (display_then_canonical (lit "555123456789"))). simpl. lia.
Defined.

(** X7: whatever the server's pattern accepts, [validatePhone] accepts
    too, but not the other way round: ten bare digits pass
    [validatePhone] and are refused by the server's pattern. *)
Theorem server_pattern_within_validatePhone :
  (forall s,
     test usPhoneRegex (replace_class is_separator [] s) = true ->
     validatePhone s = true)
  /\ validatePhone (lit "5551234567") = true
  /\ test usPhoneRegex (replace_class is_separator [] (lit "5551234567"))
     = false.
Proof.
  split; [|split; reflexivity].
  intros s H. rewrite strip_separators in H.
  apply usPhoneRegex_accepts in H as (ds & E & Hl & Hd).
  unfold validatePhone. rewrite strip_separators.
  apply phoneRegex_accepts.
  exists (lit "+"), (chr "1" :: ds). repeat split.
  - now right.
  - simpl. lia.
  - simpl. lia.
  - exact Hd.
  - exact E.
Qed.

Lemma server_pattern_within_validatePhone_witness :
  validatePhone (lit "+1 (555) 123-4567") = true.
Proof.
  apply (proj1 server_pattern_within_validatePhone). reflexivity.
Defined.

End PhoneNormalizerMore.

(* ================================================================== *)
(** ** More on the two endpoints *)
(* ================================================================== *)

Section EndpointsMore.

Context {PS : Type} (stripe : Stripe PS).


(** X9: a 200 from the phone endpoint means the update went through: the
    request named a customer, its phone cleans to a canonical US number,
    that number was sent to the provider once, and the provider call
    returned. *)
Theorem update_phone_200_only_if (body : list (jsstring * value)) (ps : PS) :
  let w := serve (update_customer_phone stripe body) ps in
  statusCode (res w) = 200%N ->
  given (get body (lit "customerId"))
  /\ exists s,
       get body (lit "phone") = VString s
       /\ canonical_us (stripped s)
       /\ calls w = [phone_update (get body (lit "customerId")) (stripped s)]
       /\ res w = success_response
       /\ exists c,
            customers_update stripe (get body (lit "customerId"))
              (VObject [(lit "phone", VString (stripped s));
                        (lit "metadata",
                         VObject [(lit "phone", VString (stripped s))])]) ps
            = (Ret c, provider w).
Proof.
  cbv zeta.
  destruct (given_dec (get body (lit "customerId"))) as [Hc|Hc].
  2:{ rewrite (run_no_customer stripe body ps Hc). discriminate. }
  destruct (given_dec (get body (lit "phone"))) as [Hg|Hg].
  2:{ rewrite (run_no_phone stripe body ps Hc Hg). discriminate. }
  destruct Hg as (s & Hp & Hb).
  destruct (canonical_dec (stripped s)) as [Hs|Hs].
  2:{ rewrite (run_bad_format stripe body ps Hc Hp Hb Hs). discriminate. }
  rewrite (run_accepted stripe body ps Hc Hp Hs).
  destruct (customers_update stripe _ _ ps) as [[c|e] ps'] eqn:E; simpl;
    [|discriminate].
  intros _. split; [exact Hc|]. exists s. repeat split; auto.
  now exists c.
Qed.

(** X10: when the provider rejects the update, the endpoint answers 500
    with the provider's message, writes the error to the console, and
    leaves it at the one call: the world after the request is exactly
    this. *)
Theorem update_phone_provider_error
  (body : list (jsstring * value)) (ps : PS)
  (s : jsstring) (e : Error) (ps' : PS) :
  given (get body (lit "customerId")) ->
  get body (lit "phone") = VString s ->
  canonical_us (stripped s) ->
  customers_update stripe (get body (lit "customerId"))
    (VObject [(lit "phone", VString (stripped s));
              (lit "metadata",
               VObject [(lit "phone", VString (stripped s))])]) ps
  = (Throw e, ps') ->
  serve (update_customer_phone stripe body) ps
  = {| provider := ps';
       calls := [phone_update (get body (lit "customerId")) (stripped s)];
       console := [(lit "Error updating customer phone:", e)];
       res := error_response 500 "Failed to update customer phone"
                (message e) |}.
Proof.
  intros Hc Hp Hs E. now rewrite (run_accepted stripe body ps Hc Hp Hs), E.
Qed.

Variable env : Env.

(** X11: the setup-session endpoint always answers, with an object, and
    always asks the provider for a new customer first, exactly once; a
    session is asked for at most once and only for a customer the
    provider returned; the only statuses are 200 and 500. *)
Theorem create_setup_session_responds (ps : PS) :
  let w := serve (create_setup_session stripe env) ps in
  (exists payload, sent (res w) = Some (VObject payload))
  /\ ((statusCode (res w) = 500%N
       /\ calls w = [CustomersCreate (customer_params env)]
       /\ exists e,
            fst (customers_create stripe (customer_params env) ps) = Throw e)
      \/ ((statusCode (res w) = 200%N \/ statusCode (res w) = 500%N)
          /\ exists customer,
               fst (customers_create stripe (customer_params env) ps)
               = Ret customer
               /\ calls w = [CustomersCreate (customer_params env);
                             SessionsCreate (session_params env customer)])).
Proof.
  cbv zeta. rewrite run_create_setup_session.
  destruct (customers_create stripe (customer_params env) ps)
    as [[customer|e] ps1]; simpl.
  - destruct (sessions_create stripe (session_params env customer) ps1)
      as [[session|e] ps2]; simpl.
    + split; [eexists; reflexivity|]. right. split; [now left|].
      now exists customer.
    + split; [eexists; reflexivity|]. right. split; [now right|].
      now exists customer.
  - split; [eexists; reflexivity|]. left. repeat split. now exists e.
Qed.

(** X12: a 200 from the setup-session endpoint means both provider calls
    returned, and the body is exactly the pair of the session's client
    secret and the customer's id. *)
Theorem create_setup_session_200_only_if (ps : PS) :
  let w := serve (create_setup_session stripe env) ps in
  statusCode (res w) = 200%N ->
  exists customer ps1 session,
    customers_create stripe (customer_params env) ps = (Ret customer, ps1)
    /\ sessions_create stripe (session_params env customer) ps1
       = (Ret session, provider w)
    /\ sent (res w)
       = Some (VObject [(lit "clientSecret", client_secret session);
                        (lit "customerId", id customer)])
    /\ console w = [].
Proof.
  cbv zeta. rewrite run_create_setup_session.
  destruct (customers_create stripe (customer_params env) ps)
    as [[customer|e] ps1]; simpl; [|discriminate].
  destruct (sessions_create stripe (session_params env customer) ps1)
    as [[session|e] ps2] eqn:E; simpl; [|discriminate].
  intros _. exists customer, ps1, session. auto.
Qed.

(** X13: every session the endpoint asks for is a setup-mode, embedded
    session for the customer the provider has just returned, and its
    return URL is the frontend URL followed by the success flag and the
    session-id placeholder. *)
Theorem session_for_created_customer (ps : PS) (params : value) :
  In (SessionsCreate params)
     (calls (serve (create_setup_session stripe env) ps)) ->
  exists customer fields,
    fst (customers_create stripe (customer_params env) ps) = Ret customer
    /\ params = VObject fields
    /\ get fields (lit "mode") = VString (lit "setup")
    /\ get fields (lit "ui_mode") = VString (lit "embedded")
    /\ get fields (lit "customer") = id customer
    /\ get fields (lit "payment_method_types") = VArray [VString (lit "card")]
    /\ get fields (lit "return_url")
       = VString (FRONTEND_URL env
                  ++ lit "?success=true&session_id={CHECKOUT_SESSION_ID}").
Proof.
  rewrite run_create_setup_session.
  destruct (customers_create stripe (customer_params env) ps)
    as [[customer|e] ps1]; simpl.
  - assert (H : In (SessionsCreate params)
                  [CustomersCreate (customer_params env);
                   SessionsCreate (session_params env customer)] ->
                params = session_params env customer).
    { intros [H|[H|[]]]; [discriminate|]. now injection H. }
    intros Hin. exists customer. eexists. split; [reflexivity|].
    split; [apply H|repeat split].
    destruct (sessions_create stripe (session_params env customer) ps1)
      as [[session|e] ps2]; exact Hin.
  - intros [H|[]]. discriminate.
Qed.

End EndpointsMore.

Section EndpointsMoreRuns.

Lemma update_phone_200_only_if_witness :
  exists s,
    get (phone_body "cus_123" "+1 555 123 4567") (lit "phone") = VString s
    /\ canonical_us (stripped s).
Proof.
  destruct (@update_phone_200_only_if unit stub_up
              (phone_body "cus_123" "+1 555 123 4567") tt eq_refl)
    as (_ & s & Hp & Hs & _).
  now exists s.
Defined.

Lemma update_phone_provider_error_witness :
  serve (update_customer_phone stub_down
           (phone_body "cus_123" "+15551234567")) tt
  = {| provider := tt;
       calls := [phone_update (VString (lit "cus_123")) (lit "+15551234567")];
       console := [(lit "Error updating customer phone:", rate_limited)];
       res := error_response 500 "Failed to update customer phone"
                (lit "Too many requests") |}.
Proof.
  apply (@update_phone_provider_error unit stub_down
           (phone_body "cus_123" "+15551234567") tt
           (lit "+15551234567") rate_limited tt).
  - exact cus_123_given.
  - reflexivity.
  - exact canonical_example.
  - reflexivity.
Defined.

Lemma create_setup_session_200_only_if_witness :
  exists customer ps1 session,
    customers_create stub_up (customer_params demo_env) tt
    = (Ret customer, ps1)
    /\ sessions_create stub_up (session_params demo_env customer) ps1
       = (Ret session, tt).
Proof.
  destruct (@create_setup_session_200_only_if unit stub_up demo_env tt
              eq_refl)
    as (customer & ps1 & session & Hc & Hs & _).
  now exists customer, ps1, session.
Defined.

Lemma session_for_created_customer_witness :
  exists customer fields,
    session_params demo_env cus_123 = VObject fields
    /\ get fields (lit "customer") = id customer
    /\ get fields (lit "return_url")
       = VString (lit "http://localhost:3000?success=true&session_id={CHECKOUT_SESSION_ID}").
Proof.
  destruct (@session_for_created_customer unit stub_up demo_env tt
              (session_params demo_env cus_123))
    as (customer & fields & _ & Hf & _ & _ & Hc & _ & Hr).
  - right. left. reflexivity.
  - exists customer, fields. auto.
Defined.

End EndpointsMoreRuns.

(* ================================================================== *)
(** ** Start-up *)
(* ================================================================== *)

Section StartupFacts.

Lemma falsy_false (v : option jsstring) :
  falsy v = false <-> exists s, v = Some s /\ s <> [].
Proof.
  destruct v as [[|c s]|]; simpl; split; try discriminate.
  - intros (s & H & Hs). injection H as <-. contradiction.
  - intros _. exists (c :: s). split; [reflexivity|discriminate].
  - reflexivity.
  - intros (s & H & _). discriminate.
Qed.

(** X14: the server starts exactly when STRIPE_SECRET_KEY and
    FRONTEND_URL are both set to non-empty strings, and then uses them as
    they are; a variable set to the empty string counts as missing, and
    a missing secret key is the error reported even when the frontend
    URL is missing too. *)
Theorem startup_requires_both (env : process_env) :
  ((exists cfg, startup env = Ret cfg)
   <-> exists k u,
         getenv env (lit "STRIPE_SECRET_KEY") = Some k /\ k <> []
         /\ getenv env (lit "FRONTEND_URL") = Some u /\ u <> [])
  /\ (forall cfg,
        startup env = Ret cfg ->
        getenv env (lit "STRIPE_SECRET_KEY") = Some (secret_key cfg)
        /\ getenv env (lit "FRONTEND_URL") = Some (cors_origin cfg)
        /\ secret_key cfg <> [] /\ cors_origin cfg <> [])
  /\ (falsy (getenv env (lit "STRIPE_SECRET_KEY")) = true ->
      startup env
      = Throw {| message := lit "STRIPE_SECRET_KEY is required but not found in environment variables" |}).
Proof.
  unfold startup.
  destruct (falsy (getenv env (lit "STRIPE_SECRET_KEY"))) eqn:Ek.
  - split; [|split]; [|discriminate|reflexivity].
    split; [intros [cfg H]; discriminate|].
    intros (k & u & Hk & Hk' & _).
    assert (F : falsy (getenv env (lit "STRIPE_SECRET_KEY")) = false).
    { apply falsy_false. now exists k. }
    congruence.
  - apply falsy_false in Ek as (k & Hk & Hk').
    destruct (falsy (getenv env (lit "FRONTEND_URL"))) eqn:Eu.
    + split; [|split]; [|discriminate|discriminate].
      split; [intros [cfg H]; discriminate|].
      intros (k' & u & _ & _ & Hu & Hu').
      assert (F : falsy (getenv env (lit "FRONTEND_URL")) = false).
      { apply falsy_false. now exists u. }
      congruence.
    + apply falsy_false in Eu as (u & Hu & Hu').
      rewrite Hk, Hu. split; [|split]; [| |discriminate].
      * split; [|intros _; eexists; reflexivity].
        intros _. now exists k, u.
      * intros cfg H. injection H as <-. simpl. auto.
Qed.

Lemma startup_requires_both_witness :
  startup [(lit "FRONTEND_URL", lit "http://localhost:3000");
           (lit "STRIPE_SECRET_KEY", [])]
  = Throw {| message := lit "STRIPE_SECRET_KEY is required but not found in environment variables" |}.
Proof.
  apply (startup_requires_both
           [(lit "FRONTEND_URL", lit "http://localhost:3000");
            (lit "STRIPE_SECRET_KEY", [])]).
  reflexivity.
Defined.

End StartupFacts.

(* ================================================================== *)
(** ** The phone field: one lemma per path through the listeners *)
(* ================================================================== *)

Section PhoneField.

Lemma jsstring_eqb_eq (s t : jsstring) : JsString.eqb s t = true <-> s = t.
Proof.
  revert t. induction s as [|a s IH]; intros [|b t]; simpl;
    try (split; [discriminate|discriminate]); [tauto|].
  unfold char_eqb. rewrite andb_true_iff, N.eqb_eq, IH. split.
  - intros [-> ->]. reflexivity.
  - intros H. injection H as -> ->. auto.
Qed.

Lemma same_as_saved_true (p : jsstring) (saved : option jsstring) :
  same_as_saved p saved = true <-> saved = Some p.
Proof.
  destruct saved as [q|]; simpl; [|split; discriminate].
  rewrite jsstring_eqb_eq. split; [now intros ->|].
  intros H. now injection H.
Qed.

Lemma digits_of_trimStart (s : jsstring) :
  digits_of (trimStart s) = digits_of s.
Proof.
  induction s as [|c s IH]; [reflexivity|]. simpl.
  destruct (is_space c) eqn:E; [|reflexivity].
  unfold digits_of in *. simpl. now rewrite (digit_not_space c E).
Qed.

Lemma digits_of_rev (s : jsstring) : digits_of (rev s) = rev (digits_of s).
Proof. apply filter_rev. Qed.

Lemma digits_of_trim (s : jsstring) : digits_of (trim s) = digits_of s.
Proof.
  unfold trim.
  rewrite digits_of_rev, digits_of_trimStart, digits_of_rev, rev_involutive.
  apply digits_of_trimStart.
Qed.

Lemma digits_not_blank (s : jsstring) :
  length (digits_of s) <> 0 -> ~ blank s.
Proof.
  intros H Hb. apply H. unfold blank in Hb.
  unfold digits_of. induction s as [|c s IH]; [reflexivity|].
  simpl in *. apply andb_true_iff in Hb as [Hc Hs].
  rewrite (digit_not_space c Hc). apply IH; auto.
  intros E. apply H. now rewrite (digit_not_space c Hc).
Qed.

Lemma snoc_not_same {A} (l : list A) (x : A) : l ++ [x] <> l.
Proof.
  intros H. apply (f_equal (@length A)) in H.
  rewrite length_app in H. simpl in H. lia.
Qed.

Context {NS : Type} (br : Browser NS) (backendUrl : jsstring).

Variable pg : Page NS.

Lemma update_without_customer (phone : jsstring) :
  truthy (customerId pg) = false ->
  after (updateCustomerPhone br backendUrl phone) pg
  = console_error_line (ErrorText (lit "No customer ID available")) pg.
Proof.
  intros H. unfold after, updateCustomerPhone. now rewrite H.
Qed.

Lemma update_already_saved (phone : jsstring) :
  truthy (customerId pg) = true ->
  lastSavedPhone pg = Some phone ->
  after (updateCustomerPhone br backendUrl phone) pg = pg.
Proof.
  intros H Hs. unfold after, updateCustomerPhone. rewrite H.
  now rewrite (proj2 (same_as_saved_true phone _) Hs).
Qed.

Lemma update_outcome (phone : jsstring) :
  truthy (customerId pg) = true ->
  lastSavedPhone pg <> Some phone ->
  after (updateCustomerPhone br backendUrl phone) pg
  = let rq := update_request backendUrl (customerId pg) phone in
    match fetch br rq (network pg) with
    | (Ret r, ns') =>
        if ok r then saved_page phone (fetched rq ns' pg)
        else failed_page (refusal br r) (fetched rq ns' pg)
    | (Throw e, ns') => failed_page e (fetched rq ns' pg)
    end.
Proof.
  intros H Hs. unfold after, updateCustomerPhone. rewrite H.
  destruct (same_as_saved phone (lastSavedPhone pg)) eqn:E.
  { now apply same_as_saved_true in E. }
  cbv zeta. unfold try_, then_, await_fetch. simpl.
  destruct (fetch br (update_request backendUrl (customerId pg) phone)
              (network pg)) as [[r|e] ns'].
  - destruct r as [o j]. destruct o; simpl; [reflexivity|].
    unfold refusal, json_or_empty, failed_page, shown_text, new_Error.
    simpl.
    destruct j as [v|e]; simpl.
    + destruct v as [| |b|n|s|items|fields]; simpl; try reflexivity.
      * destruct (null_read_message br); reflexivity.
      * destruct (null_read_message br); reflexivity.
      * unfold or_else.
        destruct (get fields (lit "message")) as [| |b|n|s|items|fs];
          simpl; try reflexivity.
        -- destruct b; simpl; [|reflexivity].
           destruct (ToString br (VBool true)); reflexivity.
        -- destruct (Z.eqb n 0); simpl; [reflexivity|].
           destruct (ToString br (VNumber n)); reflexivity.
        -- destruct s; reflexivity.
        -- destruct (ToString br (VArray items)); reflexivity.
        -- destruct (ToString br (VObject fs)); reflexivity.
    + reflexivity.
  - unfold failed_page, shown_text. simpl. destruct (message e); reflexivity.
Qed.

Lemma blur_blank :
  blank (phoneInput_value pg) ->
  after (on_blur br backendUrl) pg
  = set_phoneSuccess_display false (set_phoneError_display false pg).
Proof.
  intros H. apply trim_empty in H. unfold after, on_blur. cbv zeta.
  now rewrite H.
Qed.

Lemma blur_miscount :
  ~ blank (phoneInput_value pg) ->
  length (digits_of (phoneInput_value pg)) <> 10 ->
  after (on_blur br backendUrl) pg
  = set_phoneSuccess_display false
      (set_phoneError_display true
         (set_phoneError_text
            (lit "Please enter a valid 10-digit US phone number") pg)).
Proof.
  intros Hb Hd. unfold after, on_blur. cbv zeta.
  destruct (Nat.eqb_spec (length (trim (phoneInput_value pg))) 0) as [E|E].
  { now apply trim_empty in E. }
  rewrite strip_nondigits, digits_of_trim.
  destruct (Nat.eqb_spec (length (digits_of (phoneInput_value pg))) 10);
    [contradiction|reflexivity].
Qed.

Lemma blur_ten_digits :
  length (digits_of (phoneInput_value pg)) = 10 ->
  after (on_blur br backendUrl) pg
  = after (updateCustomerPhone br backendUrl
             (lit "+1" ++ digits_of (phoneInput_value pg))) pg.
Proof.
  intros Hd. unfold after, on_blur. cbv zeta.
  destruct (Nat.eqb_spec (length (trim (phoneInput_value pg))) 0) as [E|E].
  { apply trim_empty in E. exfalso. revert E. apply digits_not_blank. lia. }
  rewrite strip_nondigits, digits_of_trim, Hd. simpl negb. cbv iota.
  rewrite formatPhoneToUS_ten by (rewrite digits_of_trim; exact Hd).
  now rewrite digits_of_trim.
Qed.

End PhoneField.

(* ================================================================== *)
(** ** The phone field: what leaving it does *)
(* ================================================================== *)

Section PhoneFieldBlur.

Context {NS : Type} (br : Browser NS) (backendUrl : jsstring).

Lemma blur_requests (pg : Page NS) :
  requests (after (on_blur br backendUrl) pg) = requests pg
  \/ (length (digits_of (phoneInput_value pg)) = 10
      /\ truthy (customerId pg) = true
      /\ lastSavedPhone pg
         <> Some (lit "+1" ++ digits_of (phoneInput_value pg))
      /\ requests (after (on_blur br backendUrl) pg)
         = requests pg
           ++ [update_request backendUrl (customerId pg)
                 (lit "+1" ++ digits_of (phoneInput_value pg))]).
Proof.
  destruct (Nat.eq_dec (length (digits_of (phoneInput_value pg))) 10)
    as [Hd|Hd].
  - rewrite (blur_ten_digits br backendUrl pg Hd).
    set (p := lit "+1" ++ digits_of (phoneInput_value pg)).
    destruct (truthy (customerId pg)) eqn:Ht.
    + destruct (same_as_saved p (lastSavedPhone pg)) eqn:Es.
      * apply same_as_saved_true in Es.
        left. now rewrite (update_already_saved br backendUrl pg Ht Es).
      * assert (Hs : lastSavedPhone pg <> Some p).
        { intros F. apply same_as_saved_true in F. congruence. }
        right. repeat split; auto.
        rewrite (update_outcome br backendUrl pg Ht Hs). cbv zeta.
        destruct (fetch br _ (network pg)) as [[r|e] ns'];
          [destruct (ok r)|]; reflexivity.
    + left. now rewrite (update_without_customer br backendUrl pg p Ht).
  - left. destruct (forallb is_space (phoneInput_value pg)) eqn:Eb.
    + now rewrite (blur_blank br backendUrl pg Eb).
    + assert (Hb : ~ blank (phoneInput_value pg)).
      { unfold blank. congruence. }
      now rewrite (blur_miscount br backendUrl pg Hb Hd).
Qed.

Variable pg : Page NS.

(** X15: leaving the field empty, or with whitespace only, sends nothing
    and hides both notes; the text of the error note, the saved phone and
    the customer id stay as they were. *)
Theorem blur_on_blank_field :
  blank (phoneInput_value pg) ->
  let pg' := after (on_blur br backendUrl) pg in
  requests pg' = requests pg
  /\ network pg' = network pg
  /\ phoneError_display pg' = false
  /\ phoneSuccess_display pg' = false
  /\ phoneError_text pg' = phoneError_text pg
  /\ lastSavedPhone pg' = lastSavedPhone pg
  /\ page_console pg' = page_console pg.
Proof.
  intros H. cbv zeta. rewrite (blur_blank br backendUrl pg H).
  repeat split.
Qed.

(** X16: leaving the field with a digit count other than ten sends
    nothing, shows the ten-digit error and hides the success note,
    whatever else the text holds. *)
Theorem blur_on_wrong_digit_count :
  ~ blank (phoneInput_value pg) ->
  length (digits_of (phoneInput_value pg)) <> 10 ->
  let pg' := after (on_blur br backendUrl) pg in
  requests pg' = requests pg
  /\ network pg' = network pg
  /\ phoneError_text pg'
     = lit "Please enter a valid 10-digit US phone number"
  /\ phoneError_display pg' = true
  /\ phoneSuccess_display pg' = false
  /\ lastSavedPhone pg' = lastSavedPhone pg.
Proof.
  intros Hb Hd. cbv zeta. rewrite (blur_miscount br backendUrl pg Hb Hd).
  repeat split.
Qed.

(** X17: the only thing the field ever sends is a canonical US number.
    Leaving the field sends at most one request; when it does, the page
    holds a customer id, the text holds exactly ten digits, and the
    request is a POST to the phone endpoint whose phone is +1 followed by
    those digits. *)
Theorem blur_sends_only_canonical :
  let pg' := after (on_blur br backendUrl) pg in
  requests pg' = requests pg
  \/ exists p,
       canonical_us p
       /\ p = lit "+1" ++ digits_of (phoneInput_value pg)
       /\ truthy (customerId pg) = true
       /\ lastSavedPhone pg <> Some p
       /\ requests pg'
          = requests pg
            ++ [{| url := backendUrl ++ lit "/api/update-customer-phone";
                   method := lit "POST";
                   content_type := lit "application/json";
                   payload := VObject [(lit "customerId", customerId pg);
                                       (lit "phone", VString p)] |}].
Proof.
  cbv zeta. destruct (blur_requests pg) as [H|(Hd & Ht & Hs & H)];
    [now left|right].
  exists (lit "+1" ++ digits_of (phoneInput_value pg)).
  repeat split; auto.
  apply canonical_plus_one; [apply digits_of_all_digits|exact Hd].
Qed.

(** X18: a save is remembered.  When the request is answered with an ok
    response, the phone sent becomes the last saved phone, the success
    note goes up with a three-second timer, the error note goes down;
    leaving the field again with the same text then changes nothing and
    sends nothing, and the timer's callback takes the success note
    down. *)
Theorem blur_saves_then_skips (r : Response) (ns' : NS) :
  let p := lit "+1" ++ digits_of (phoneInput_value pg) in
  let rq := update_request backendUrl (customerId pg) p in
  length (digits_of (phoneInput_value pg)) = 10 ->
  truthy (customerId pg) = true ->
  lastSavedPhone pg <> Some p ->
  fetch br rq (network pg) = (Ret r, ns') ->
  ok r = true ->
  let pg1 := after (on_blur br backendUrl) pg in
  requests pg1 = requests pg ++ [rq]
  /\ lastSavedPhone pg1 = Some p
  /\ phoneSuccess_display pg1 = true
  /\ phoneError_display pg1 = false
  /\ timeouts pg1 = timeouts pg ++ [3000%N]
  /\ after (on_blur br backendUrl) pg1 = pg1
  /\ phoneSuccess_display (after on_timeout pg1) = false.
Proof.
  intros p rq Hd Ht Hs Hf Hok. subst rq p. cbv zeta.
  rewrite (blur_ten_digits br backendUrl pg Hd).
  rewrite (update_outcome br backendUrl pg Ht Hs). cbv zeta.
  rewrite Hf, Hok.
  repeat split.
  rewrite blur_ten_digits by exact Hd.
  apply update_already_saved; [exact Ht|reflexivity].
Qed.

(** X19: a failed save is not remembered.  When the request is rejected
    or answered with a response that is not ok, the last saved phone
    stays as it was, so leaving the field again retries; no timer is
    set, the success note is hidden and the error note is shown with a
    text that is never empty: the message of the error, or a stock text
    in its place. *)
Theorem blur_failed_save :
  let p := lit "+1" ++ digits_of (phoneInput_value pg) in
  let rq := update_request backendUrl (customerId pg) p in
  length (digits_of (phoneInput_value pg)) = 10 ->
  truthy (customerId pg) = true ->
  lastSavedPhone pg <> Some p ->
  (forall r, fst (fetch br rq (network pg)) = Ret r -> ok r = false) ->
  let pg' := after (on_blur br backendUrl) pg in
  requests pg' = requests pg ++ [rq]
  /\ lastSavedPhone pg' = lastSavedPhone pg
  /\ timeouts pg' = timeouts pg
  /\ phoneSuccess_display pg' = false
  /\ phoneError_display pg' = true
  /\ phoneError_text pg' <> []
  /\ (forall e, fst (fetch br rq (network pg)) = Throw e ->
      phoneError_text pg' = shown_text e)
  /\ (forall r fields m,
        fst (fetch br rq (network pg)) = Ret r ->
        json r = Ret (VObject fields) ->
        get fields (lit "message") = VString m -> m <> [] ->
        phoneError_text pg' = m)
  /\ (forall r e,
        fst (fetch br rq (network pg)) = Ret r -> json r = Throw e ->
        phoneError_text pg' = lit "Failed to save phone").
Proof.
  intros p rq Hd Ht Hs Hbad. cbv zeta.
  rewrite (blur_ten_digits br backendUrl pg Hd).
  fold p. rewrite (update_outcome br backendUrl pg Ht Hs). cbv zeta.
  fold rq.
  assert (Htext : forall e, shown_text e <> []).
  { intros e. unfold shown_text.
    destruct (message e); discriminate. }
  destruct (fetch br rq (network pg)) as [[r|e] ns']; simpl in *.
  - rewrite (Hbad r eq_refl). simpl. repeat split; auto.
    + intros e F. discriminate.
    + intros r' fields m F Hj Hm Hne. injection F as <-.
      unfold shown_text, refusal. rewrite Hj, Hm.
      destruct m; [contradiction|reflexivity].
    + intros r' e F Hj. injection F as <-.
      unfold shown_text, refusal. now rewrite Hj.
  - repeat split; auto.
    + intros e' F. now injection F as <-.
    + intros r fields m F. discriminate.
    + intros r e' F. discriminate.
Qed.

(** X20: typing and leaving.  After the [input] listener has reformatted
    the text typed, leaving the field sends nothing when fewer than ten
    digits were typed, and otherwise sends +1 followed by the first ten
    digits typed. *)
Theorem typing_then_blur :
  let typed := phoneInput_value pg in
  let p := lit "+1" ++ firstn 10 (digits_of typed) in
  let pg' := after (on_blur br backendUrl) (after on_input pg) in
  phoneInput_value pg' = formatPhoneInput typed
  /\ (length (digits_of typed) < 10 -> requests pg' = requests pg)
  /\ (10 <= length (digits_of typed) ->
      truthy (customerId pg) = true ->
      lastSavedPhone pg <> Some p ->
      requests pg'
      = requests pg ++ [update_request backendUrl (customerId pg) p]).
Proof.
  cbv zeta.
  set (pg1 := after on_input pg).
  assert (Hv : phoneInput_value pg1 = formatPhoneInput (phoneInput_value pg))
    by reflexivity.
  assert (Hr : requests pg1 = requests pg) by reflexivity.
  assert (Hc : customerId pg1 = customerId pg) by reflexivity.
  assert (Hs : lastSavedPhone pg1 = lastSavedPhone pg) by reflexivity.
  assert (Hd : digits_of (phoneInput_value pg1)
               = firstn 10 (digits_of (phoneInput_value pg))).
  { rewrite Hv. apply formatPhoneInput_digits. }
  assert (Hl : length (digits_of (phoneInput_value pg1))
               = Nat.min 10 (length (digits_of (phoneInput_value pg)))).
  { rewrite Hd. apply length_firstn. }
  clearbody pg1.
  split; [|split].
  - rewrite <- Hv.
    destruct (Nat.eq_dec (length (digits_of (phoneInput_value pg1))) 10)
      as [E|E].
    + rewrite (blur_ten_digits br backendUrl pg1 E).
      destruct (truthy (customerId pg1)) eqn:Ht.
      * destruct (same_as_saved
                    (lit "+1" ++ digits_of (phoneInput_value pg1))
                    (lastSavedPhone pg1)) eqn:Es.
        -- apply same_as_saved_true in Es.
           now rewrite (update_already_saved br backendUrl pg1 Ht Es).
        -- assert (Hn : lastSavedPhone pg1
                         <> Some (lit "+1" ++ digits_of (phoneInput_value pg1))).
           { intros F. apply same_as_saved_true in F. congruence. }
           rewrite (update_outcome br backendUrl pg1 Ht Hn). cbv zeta.
           destruct (fetch br _ (network pg1)) as [[r|e] ns'];
             [destruct (ok r)|]; reflexivity.
      * now rewrite (update_without_customer br backendUrl pg1 _ Ht).
    + destruct (forallb is_space (phoneInput_value pg1)) eqn:Eb.
      * now rewrite (blur_blank br backendUrl pg1 Eb).
      * assert (Hb : ~ blank (phoneInput_value pg1)).
        { unfold blank. congruence. }
        now rewrite (blur_miscount br backendUrl pg1 Hb E).
  - intros Hlt.
    destruct (blur_requests pg1) as [H|(E & _)];
      [congruence|lia].
  - intros Hge Ht Hn.
    assert (E : length (digits_of (phoneInput_value pg1)) = 10) by lia.
    rewrite <- Hc in Ht. rewrite <- Hs, <- Hd in Hn.
    rewrite (blur_ten_digits br backendUrl pg1 E).
    rewrite (update_outcome br backendUrl pg1 Ht Hn). cbv zeta.
    rewrite <- Hr, <- Hc, <- Hd.
    destruct (fetch br _ (network pg1)) as [[r|e] ns'];
      [destruct (ok r)|]; reflexivity.
Qed.

End PhoneFieldBlur.

(* ================================================================== *)
(** ** The phone field and the phone endpoint together *)
(* ================================================================== *)

Section FieldToEndpoint.

Context {NS PS : Type} (br : Browser NS) (backendUrl : jsstring)
  (stripe : Stripe PS).

(** X21: what the field sends, the endpoint accepts.  For a page that
    holds a customer id (a non-blank string), the body of any request the
    [blur] listener sends passes the endpoint's validation: the endpoint
    makes its one provider call, with the phone exactly as the field
    sent it, and never answers 400. *)
Theorem blur_request_passes_server (pg : Page NS) (ps : PS) (rq : Request) :
  given (customerId pg) ->
  requests (after (on_blur br backendUrl) pg) = requests pg ++ [rq] ->
  exists body p,
    payload rq = VObject body
    /\ get body (lit "phone") = VString p
    /\ canonical_us p
    /\ calls (serve (update_customer_phone stripe body) ps)
       = [phone_update (customerId pg) p]
    /\ statusCode (res (serve (update_customer_phone stripe body) ps))
       <> 400%N.
Proof.
  intros Hg Hrq.
  destruct (blur_requests br backendUrl pg) as [H|(Hd & Ht & Hs & H)].
  { rewrite H in Hrq. symmetry in Hrq. now apply snoc_not_same in Hrq. }
  rewrite H in Hrq. apply app_inv_head in Hrq. injection Hrq as <-.
  set (p := lit "+1" ++ digits_of (phoneInput_value pg)) in *.
  assert (Hp : canonical_us p).
  { apply canonical_plus_one; [apply digits_of_all_digits|exact Hd]. }
  exists [(lit "customerId", customerId pg); (lit "phone", VString p)], p.
  assert (Hc : get [(lit "customerId", customerId pg);
                    (lit "phone", VString p)] (lit "customerId")
               = customerId pg) by reflexivity.
  assert (Hph : get [(lit "customerId", customerId pg);
                     (lit "phone", VString p)] (lit "phone")
                = VString p) by reflexivity.
  assert (Hs' : canonical_us (stripped p)).
  { now rewrite (canonical_stripped Hp). }
  rewrite <- Hc in Hg.
  rewrite (run_accepted stripe _ ps Hg Hph Hs').
  rewrite Hc, (canonical_stripped Hp).
  repeat split; auto;
    destruct (customers_update stripe _ _ ps) as [[c|e] ps'];
    simpl; try reflexivity; discriminate.
Qed.

End FieldToEndpoint.

Section PhoneFieldRuns.

Lemma blur_on_blank_field_witness :
  requests (after (on_blur (browser_stub (Ret response_ok)) backend)
              (page_with (VString (lit "cus_123")) None (lit "   ")))
  = [].
Proof.
  apply (@blur_on_blank_field unit (browser_stub (Ret response_ok)) backend
           (page_with (VString (lit "cus_123")) None (lit "   "))).
  reflexivity.
Defined.

Lemma blur_on_wrong_digit_count_witness :
  let pg' := after (on_blur (browser_stub (Ret response_ok)) backend)
               (page_with (VString (lit "cus_123")) None (lit "(555) 123")) in
  requests pg' = []
  /\ network pg' = tt
  /\ phoneError_text pg'
     = lit "Please enter a valid 10-digit US phone number"
  /\ phoneError_display pg' = true
  /\ phoneSuccess_display pg' = false
  /\ lastSavedPhone pg' = None.
Proof.
  apply (@blur_on_wrong_digit_count unit (browser_stub (Ret response_ok))
           backend
           (page_with (VString (lit "cus_123")) None (lit "(555) 123"))).
  - discriminate.
  - simpl. lia.
Defined.

Lemma blur_saves_then_skips_witness :
  let pg1 := after (on_blur (browser_stub (Ret response_ok)) backend)
               (page_with (VString (lit "cus_123")) None
                  (lit "(555) 123-4567")) in
  requests pg1
  = [update_request backend (VString (lit "cus_123")) (lit "+15551234567")]
  /\ lastSavedPhone pg1 = Some (lit "+15551234567")
  /\ phoneSuccess_display pg1 = true
  /\ phoneError_display pg1 = false
  /\ timeouts pg1 = [3000%N]
  /\ after (on_blur (browser_stub (Ret response_ok)) backend) pg1 = pg1
  /\ phoneSuccess_display (after on_timeout pg1) = false.
Proof.
  apply (@blur_saves_then_skips unit (browser_stub (Ret response_ok))
           backend
           (page_with (VString (lit "cus_123")) None (lit "(555) 123-4567"))
           response_ok tt); try reflexivity.
  discriminate.
Defined.

Lemma blur_failed_save_witness :
  let pg' := after (on_blur (browser_stub (Ret response_400)) backend)
               (page_with (VString (lit "cus_123"))
                  (Some (lit "+15550000000")) (lit "(555) 123-4567")) in
  lastSavedPhone pg' = Some (lit "+15550000000")
  /\ phoneError_display pg' = true
  /\ phoneError_text pg'
     = lit "Phone number must be a valid US number in format +1XXXXXXXXXX".
Proof.
  destruct (@blur_failed_save unit (browser_stub (Ret response_400)) backend
              (page_with (VString (lit "cus_123"))
                 (Some (lit "+15550000000")) (lit "(555) 123-4567")))
    as (_ & Hsaved & _ & _ & Hshown & _ & _ & Hmsg & _).
  - reflexivity.
  - reflexivity.
  - discriminate.
  - intros r H. injection H as <-. reflexivity.
  - cbv zeta. split; [exact Hsaved|]. split; [exact Hshown|].
    apply (Hmsg response_400
             [(lit "error", VString (lit "Invalid phone format"));
              (lit "message", VString (lit "Phone number must be a valid US number in format +1XXXXXXXXXX"))]);
      try reflexivity.
    discriminate.
Defined.

Lemma typing_then_blur_witness :
  requests (after (on_blur (browser_stub (Ret response_ok)) backend)
              (after on_input
                 (page_with (VString (lit "cus_123")) None
                    (lit "555123456789"))))
  = [update_request backend (VString (lit "cus_123")) (lit "+15551234567")]
  /\ requests (after (on_blur (browser_stub (Ret response_ok)) backend)
                 (after on_input
                    (page_with (VString (lit "cus_123")) None
                       (lit "555123"))))
     = [].
Proof.
  split.
  - apply (@typing_then_blur unit (browser_stub (Ret response_ok)) backend
             (page_with (VString (lit "cus_123")) None (lit "555123456789"))).
    + simpl. lia.
    + reflexivity.
    + discriminate.
  - apply (@typing_then_blur unit (browser_stub (Ret response_ok)) backend
             (page_with (VString (lit "cus_123")) None (lit "555123"))).
    simpl. lia.
Defined.

Lemma blur_request_passes_server_witness :
  exists body p,
    payload (update_request backend (VString (lit "cus_123"))
               (lit "+15551234567"))
    = VObject body
    /\ get body (lit "phone") = VString p
    /\ canonical_us p
    /\ calls (serve (update_customer_phone stub_up body) tt)
       = [phone_update (VString (lit "cus_123")) p]
    /\ statusCode (res (serve (update_customer_phone stub_up body) tt))
       <> 400%N.
Proof.
  apply (@blur_request_passes_server unit unit
           (browser_stub (Ret response_ok)) backend stub_up
           (page_with (VString (lit "cus_123")) None (lit "(555) 123-4567"))
           tt
           (update_request backend (VString (lit "cus_123"))
              (lit "+15551234567"))).
  - exact cus_123_given.
  - reflexivity.
Defined.

End PhoneFieldRuns.
